(** * The "add people to channel" screen

    A shallow embedding of [app/screens/channel_add_people/channel_add_people.tsx].

    The screen is a React function component.  Its [useState] cells and
    [useRef] cells are the fields of one record, [State]; every handler of
    the component is a function on that record, returning besides the new
    state the calls it makes to its collaborators (network actions, alert,
    navigation).  An [async] handler is split at its [await]: the part that
    runs up to the call, and the part that runs when the call has resolved.

    Events are handled one at a time and the component renders again after
    each of them, so a handler reads the state of the latest render: the
    values a closure captured ([selectedCount], [loading], [term],
    [startingAddPeople]) are those of the state the handler is applied to.
    [handleSelectProfile], [getProfiles] and [startAddPeople] list these
    values among the dependencies of their [useCallback].

    The selection, a JS object used as a map from user id to profile, is a
    [gmap]: the order of its keys plays no role in the screen, and a user
    id (a string the server hands out) is not the name of a property that
    every object inherits. *)

From stdpp Require Import gmap strings list fin_maps.

(** ** Data *)

(** [UserProfile]: the screen reads the [id] and the [username] only. *)
Record UserProfile := { id : string; username : string }.

#[global] Instance UserProfile_eq_dec : EqDecision UserProfile.
Proof. solve_decision. Defined.

(** The error of a failed remote action; [reason] is the text it can show,
    when it has one. *)
Record Error := { reason : option string }.

(** [General] of [@constants]: the three constants the screen reads.  Their
    values are not part of this file. *)
Record Constants := {
  MAX_USERS_ADD_TO_CHANNEL : nat;
  PROFILE_CHUNK_SIZE : nat;
  SEARCH_TIMEOUT_MILLISECONDS : nat
}.

(** The props of the component and the server url of its context. *)
Record Props := {
  serverUrl : string;
  currentChannelId : string;
  groupConstrained : bool;
  currentTeamId : string;
  currentUserId : string
}.

(** A timer handle, as [setTimeout] returns it. *)
Definition Timeout := positive.

(** [messages.error.defaultMessage] *)
Definition messages_error : string :=
  "We could not add those users to the channel. Please check your connection and try again.".

(** The calls the screen makes to its collaborators, with their arguments. *)
Inductive Call :=
| fetchProfilesNotInChannel
    (server team channel : string) (constrained : bool) (page : Z) (perPage : nat)
| searchProfiles (server term team notInChannel : string) (allowInactive : bool)
| addMembersToChannel
    (server channel : string) (ids : list string) (postRootId : string) (flag : bool)
| alertErrorWithFallback (error : Error) (fallback : string)
| Keyboard_dismiss
| popTopScreen.

(** The refs ([searchTimeoutId], [next], [page], [mounted]) and the state
    cells of the component.  [containerHeight] and the two view refs only
    feed the layout and are left out. *)
Record State := {
  searchTimeoutId : option Timeout;
  next : bool;
  page : Z;
  mounted : bool;
  profiles : list UserProfile;
  searchResults : list UserProfile;
  loading : bool;
  term : string;
  startingAddPeople : bool;
  selectedIds : gmap string UserProfile;
  showToast : bool
}.

Definition initialState : State :=
  {| searchTimeoutId := None; next := true; page := (-1)%Z; mounted := false;
     profiles := []; searchResults := []; loading := false; term := "";
     startingAddPeople := false; selectedIds := ∅; showToast := false |}.

(** *** Setters *)

Definition set_searchTimeoutId (v : option Timeout) (s : State) : State :=
  {| searchTimeoutId := v; next := next s; page := page s; mounted := mounted s;
     profiles := profiles s; searchResults := searchResults s; loading := loading s;
     term := term s; startingAddPeople := startingAddPeople s;
     selectedIds := selectedIds s; showToast := showToast s |}.

Definition set_next (v : bool) (s : State) : State :=
  {| searchTimeoutId := searchTimeoutId s; next := v; page := page s; mounted := mounted s;
     profiles := profiles s; searchResults := searchResults s; loading := loading s;
     term := term s; startingAddPeople := startingAddPeople s;
     selectedIds := selectedIds s; showToast := showToast s |}.

Definition set_page (v : Z) (s : State) : State :=
  {| searchTimeoutId := searchTimeoutId s; next := next s; page := v; mounted := mounted s;
     profiles := profiles s; searchResults := searchResults s; loading := loading s;
     term := term s; startingAddPeople := startingAddPeople s;
     selectedIds := selectedIds s; showToast := showToast s |}.

Definition set_mounted (v : bool) (s : State) : State :=
  {| searchTimeoutId := searchTimeoutId s; next := next s; page := page s; mounted := v;
     profiles := profiles s; searchResults := searchResults s; loading := loading s;
     term := term s; startingAddPeople := startingAddPeople s;
     selectedIds := selectedIds s; showToast := showToast s |}.

Definition setProfiles (f : list UserProfile → list UserProfile) (s : State) : State :=
  {| searchTimeoutId := searchTimeoutId s; next := next s; page := page s; mounted := mounted s;
     profiles := f (profiles s); searchResults := searchResults s; loading := loading s;
     term := term s; startingAddPeople := startingAddPeople s;
     selectedIds := selectedIds s; showToast := showToast s |}.

Definition setSearchResults (v : list UserProfile) (s : State) : State :=
  {| searchTimeoutId := searchTimeoutId s; next := next s; page := page s; mounted := mounted s;
     profiles := profiles s; searchResults := v; loading := loading s;
     term := term s; startingAddPeople := startingAddPeople s;
     selectedIds := selectedIds s; showToast := showToast s |}.

Definition setLoading (v : bool) (s : State) : State :=
  {| searchTimeoutId := searchTimeoutId s; next := next s; page := page s; mounted := mounted s;
     profiles := profiles s; searchResults := searchResults s; loading := v;
     term := term s; startingAddPeople := startingAddPeople s;
     selectedIds := selectedIds s; showToast := showToast s |}.

Definition setTerm (v : string) (s : State) : State :=
  {| searchTimeoutId := searchTimeoutId s; next := next s; page := page s; mounted := mounted s;
     profiles := profiles s; searchResults := searchResults s; loading := loading s;
     term := v; startingAddPeople := startingAddPeople s;
     selectedIds := selectedIds s; showToast := showToast s |}.

Definition setStartingAddPeople (v : bool) (s : State) : State :=
  {| searchTimeoutId := searchTimeoutId s; next := next s; page := page s; mounted := mounted s;
     profiles := profiles s; searchResults := searchResults s; loading := loading s;
     term := term s; startingAddPeople := v;
     selectedIds := selectedIds s; showToast := showToast s |}.

Definition setSelectedIds
    (f : gmap string UserProfile → gmap string UserProfile) (s : State) : State :=
  {| searchTimeoutId := searchTimeoutId s; next := next s; page := page s; mounted := mounted s;
     profiles := profiles s; searchResults := searchResults s; loading := loading s;
     term := term s; startingAddPeople := startingAddPeople s;
     selectedIds := f (selectedIds s); showToast := showToast s |}.

Definition setShowToast (v : bool) (s : State) : State :=
  {| searchTimeoutId := searchTimeoutId s; next := next s; page := page s; mounted := mounted s;
     profiles := profiles s; searchResults := searchResults s; loading := loading s;
     term := term s; startingAddPeople := startingAddPeople s;
     selectedIds := selectedIds s; showToast := v |}.

(** ** The environment of the screen

    Besides the component, the timers it has scheduled: [setTimeout]
    appends one under a fresh handle, [clearTimeout] drops the one with the
    given handle (if it is still pending), and a timer that fires leaves
    the list. *)
Record Timer := { handle : Timeout; delay : nat; searchText : string }.

Record World := {
  screen : State;
  timers : list Timer;
  fresh : Timeout
}.

Definition initialWorld : World :=
  {| screen := initialState; timers := []; fresh := 1%positive |}.

Definition onScreen (f : State → State) (w : World) : World :=
  {| screen := f (screen w); timers := timers w; fresh := fresh w |}.

Definition setTimeout (text : string) (ms : nat) (w : World) : Timeout * World :=
  (fresh w,
   {| screen := screen w;
      timers := timers w ++ [{| handle := fresh w; delay := ms; searchText := text |}];
      fresh := Pos.succ (fresh w) |}).

Definition clearTimeout (t : Timeout) (w : World) : World :=
  {| screen := screen w;
     timers := filter (λ x, handle x ≠ t) (timers w);
     fresh := fresh w |}.

(** JS truthiness of a string ([Boolean(term)], [if (text)], [!term]). *)
Definition truthy (s : string) : bool := negb (String.eqb s "").

(** [String.prototype.toLowerCase], on the ASCII letters. *)
Definition lowerAscii (c : Ascii.ascii) : Ascii.ascii :=
  let n := Ascii.nat_of_ascii c in
  if ((65 <=? n) && (n <=? 90))%nat then Ascii.ascii_of_nat (n + 32) else c.

Fixpoint toLowerCase (s : string) : string :=
  match s with
  | EmptyString => EmptyString
  | String c s' => String (lowerAscii c) (toLowerCase s')
  end.

(** [Object.keys] of an object used as a map.  The keys come in the order
    of the [gmap], not in the order of insertion that [Object.keys] gives:
    nothing stated below depends on their order. *)
Definition Object_keys {V} (m : gmap string V) : list string := (map_to_list m).*1.

(** [Array.prototype.filter] with a callback that also updates a variable
    of the enclosing scope: the callback gets the variable and returns it. *)
Fixpoint Array_filter {A S} (cb : A → S → bool * S) (l : list A) (s : S) : list A * S :=
  match l with
  | [] => ([], s)
  | x :: l' =>
      let '(keep, s1) := cb x s in
      let '(kept, s2) := Array_filter cb l' s1 in
      (if keep then x :: kept else kept, s2)
  end.

(** [removeProfileFromList]: a copy of the object, less the property. *)
Definition removeProfileFromList
    (list : gmap string UserProfile) (id : string) : gmap string UserProfile :=
  let newSelectedIds := list in
  delete id newSelectedIds.

(** ** The component *)

(** [close] *)
Definition close : list Call := [Keyboard_dismiss; popTopScreen].

(** What the user, the timers and the network deliver to the screen.
    [FetchMore] is the body of [getProfiles] being run: [getProfiles] is
    that body behind [debounce(_, 100)] of [@helpers/api/general], which is
    not among the sources; it is called once on mount and whenever the list
    nears its end, and its body is taken to run, some time after the call,
    on the state of the latest render.  [TimerFired] is a timer of
    [onSearch] going off.  [ProfilesLoaded], [SearchResolved] and
    [AddMembersResolved] are the three remote actions resolving;
    [ToastChanged] is [SelectedUsers] calling the [setShowToast] it is
    given. *)
Inductive Event :=
| Mount
| Unmount
| FetchMore
| ProfilesLoaded (users : list UserProfile)
| RemoveProfile (id : string)
| SelectProfile (user : UserProfile)
| SearchTextChanged (text : string)
| SearchSubmitted
| SearchCancelled
| TimerFired (t : Timeout)
| SearchResolved (data : option (list UserProfile))
| AddPressed (selectedId : option (gmap string bool))
| AddMembersResolved (error : option Error)
| ToastChanged (shown : bool).

Section ChannelAddPeople.
Context (General : Constants) (props : Props).

Definition MAX_SELECTED_USERS : nat := MAX_USERS_ADD_TO_CHANNEL General.

Definition selectedCount (s : State) : nat := size (selectedIds s).
Definition isSearch (s : State) : bool := truthy (term s).
Definition hasProfiles (s : State) : bool := negb (length (profiles s) =? 0)%nat.

Definition loadedProfiles (users : list UserProfile) (s : State) : State :=
  if mounted s then
    let s := if (length users =? 0)%nat then set_next false s else s in
    let s := set_page (page s + 1)%Z s in
    let s := setLoading false s in
    setProfiles (λ prev, prev ++ users) s
  else s.

Definition getProfiles (s : State) : State * list Call :=
  if next s && negb (loading s) && negb (truthy (term s)) && mounted s then
    (setLoading true s,
     [fetchProfilesNotInChannel (serverUrl props) (currentTeamId props)
        (currentChannelId props) (groupConstrained props)
        (page s + 1)%Z (PROFILE_CHUNK_SIZE General)])
  else (s, []).

Definition handleRemoveProfile (id : string) (s : State) : State :=
  setSelectedIds (λ current, removeProfileFromList current id) s.

(** [addPeopleToChannel], up to its [await] ... *)
Definition addPeopleToChannel (ids : list string) : Call :=
  addMembersToChannel (serverUrl props) (currentChannelId props) ids "" false.

(** ... and from there on: the alert, if any, and the value returned.
    [error] is [result.error], [None] when it is absent. *)
Definition addPeopleToChannel_resolved (error : option Error) : list Call * bool :=
  match error with
  | Some e => ([alertErrorWithFallback e messages_error], false)
  | None => ([], true)
  end.

Definition clearSearch (s : State) : State :=
  setSearchResults [] (setTerm "" (setLoading false s)).

(** [idsToUse] of [startAddPeople]: the keys of its argument when it is
    given one, of the selection otherwise. *)
Definition idsToUse (selectedId : option (gmap string bool)) (s : State) : list string :=
  match selectedId with
  | Some o => Object_keys o
  | None => Object_keys (selectedIds s)
  end.

(** [startAddPeople], up to the [await] of [addPeopleToChannel] (with no
    id to use it runs to its end) ... *)
Definition startAddPeople
    (selectedId : option (gmap string bool)) (s : State) : State * list Call :=
  if startingAddPeople s then (s, [])
  else
    let s1 := setStartingAddPeople true s in
    let idsToUse := idsToUse selectedId s in
    if (length idsToUse =? 0)%nat then
      let success := false in
      (if success then s1 else setStartingAddPeople false s1,
       if success then close else [])
    else (s1, [addPeopleToChannel idsToUse]).

(** ... and from there on. *)
Definition startAddPeople_resolved (error : option Error) (s : State) : State * list Call :=
  let '(calls, success) := addPeopleToChannel_resolved error in
  if success then (s, calls ++ close)
  else (setStartingAddPeople false s, calls).

(** The function [handleSelectProfile] hands to [setSelectedIds], with the
    [selectedCount] its closure holds; the boolean tells whether it called
    [setShowToast(true)]. *)
Definition selectUpdater (selectedCount : nat) (user : UserProfile)
    (current : gmap string UserProfile) : gmap string UserProfile * bool :=
  if bool_decide (is_Some (current !! id user)) then
    (removeProfileFromList current (id user), false)
  else
    let wasSelected := bool_decide (is_Some (current !! id user)) in
    if negb wasSelected && (MAX_SELECTED_USERS <=? selectedCount)%nat then
      (current, true)
    else
      let newSelectedIds := current in
      (if negb wasSelected then <[id user := user]> newSelectedIds else newSelectedIds,
       false).

Definition handleSelectProfile (user : UserProfile) (s : State) : State :=
  let s1 := clearSearch s in
  let '(selected, toast) := selectUpdater (selectedCount s) user (selectedIds s1) in
  let s2 := setSelectedIds (λ _, selected) s1 in
  if toast then setShowToast true s2 else s2.

(** [searchUsers], up to its [await] ... *)
Definition searchUsers (searchTerm : string) (s : State) : State * list Call :=
  let lowerCasedTerm := toLowerCase searchTerm in
  (setLoading true s,
   [searchProfiles (serverUrl props) lowerCasedTerm (currentTeamId props)
      (currentChannelId props) true]).

(** ... and from there on; [data] is [results.data], [None] when absent. *)
Definition searchUsers_resolved (data : option (list UserProfile)) (s : State) : State :=
  let data := match data with Some d => d | None => [] end in
  setLoading false (setSearchResults data s).

Definition search (s : State) : State * list Call := searchUsers (term s) s.

Definition onSearch (text : string) (w : World) : World :=
  let w := onScreen (setLoading true) w in
  if truthy text then
    let w := onScreen (setTerm text) w in
    let w :=
      match searchTimeoutId (screen w) with
      | Some t => clearTimeout t w
      | None => w
      end in
    let '(t, w) := setTimeout text (SEARCH_TIMEOUT_MILLISECONDS General) w in
    onScreen (set_searchTimeoutId (Some t)) w
  else onScreen clearSearch w.

(** The two effects.  The first runs on mount (and its cleanup on
    unmount); the second runs on mount and after every render in which
    [selectedCount >= MAX_SELECTED_USERS] has changed. *)
Definition atLimit (s : State) : bool := (MAX_SELECTED_USERS <=? selectedCount s)%nat.

Definition mount (s : State) : State :=
  setShowToast (atLimit s) (set_mounted true s).

Definition unmount (s : State) : State := set_mounted false s.

Definition rendered (prev s : State) : State :=
  if Bool.eqb (atLimit prev) (atLimit s) then s else setShowToast (atLimit s) s.

(** One press on a row of the list: the handler, then the render. *)
Definition toggle (s : State) (user : UserProfile) : State :=
  rendered s (handleSelectProfile user s).

(** A timer that fires leaves the pending ones and runs its callback,
    [searchUsers(text)]. *)
Definition fire (t : Timeout) (w : World) : World * list Call :=
  match List.find (λ x, bool_decide (handle x = t)) (timers w) with
  | Some tm =>
      let w := clearTimeout t w in
      let '(s, calls) := searchUsers (searchText tm) (screen w) in
      (onScreen (λ _, s) w, calls)
  | None => (w, [])
  end.

Definition onState (f : State → State * list Call) (w : World) : World * list Call :=
  let '(s, calls) := f (screen w) in (onScreen (λ _, s) w, calls).

Definition handler (e : Event) (w : World) : World * list Call :=
  match e with
  | Mount => (onScreen mount w, [])
  | Unmount => (onScreen unmount w, [])
  | FetchMore => onState getProfiles w
  | ProfilesLoaded users => (onScreen (loadedProfiles users) w, [])
  | RemoveProfile i => (onScreen (handleRemoveProfile i) w, [])
  | SelectProfile user => (onScreen (handleSelectProfile user) w, [])
  | SearchTextChanged text => (onSearch text w, [])
  | SearchSubmitted => onState search w
  | SearchCancelled => (onScreen clearSearch w, [])
  | TimerFired t => fire t w
  | SearchResolved data => (onScreen (searchUsers_resolved data) w, [])
  | AddPressed selectedId => onState (startAddPeople selectedId) w
  | AddMembersResolved error => onState (startAddPeople_resolved error) w
  | ToastChanged shown => (onScreen (setShowToast shown) w, [])
  end.

Definition dispatch (w : World) (e : Event) : World * list Call :=
  let '(w', calls) := handler e w in
  (onScreen (rendered (screen w)) w', calls).

(** A run of the screen: the world reached and the calls made, in order. *)
Fixpoint run (events : list Event) (w : World) : World * list Call :=
  match events with
  | [] => (w, [])
  | e :: events' =>
      let '(w1, calls1) := dispatch w e in
      let '(w2, calls2) := run events' w1 in
      (w2, calls1 ++ calls2)
  end.

End ChannelAddPeople.

(** ** The displayed list *)

Section DisplayedList.
Context (props : Props).

(** Which profiles [filterProfilesMatchingTerm] takes to match a term. *)
Context (profileMatchesTerm : string → UserProfile → bool).

(** Modelled from the spec: [filterProfilesMatchingTerm] of [@utils/user],
    which is not among the sources.  The spec has the results "filtered
    by a general substring/term match": the helper keeps, in the order
    they come in, the profiles that match the term. *)
Definition filterProfilesMatchingTerm
    (users : list UserProfile) (term : string) : list UserProfile :=
  List.filter (profileMatchesTerm term) users.

(** [filterByTerm], the callback of [data]; it pushes onto [exactMatches]. *)
Definition filterByTerm (selectedCount : nat) (term : string)
    (p : UserProfile) (exactMatches : list UserProfile) : bool * list UserProfile :=
  if (0 <? selectedCount)%nat && String.eqb (id p) (currentUserId props) then
    (false, exactMatches)
  else if String.eqb (username p) term || String.prefix term (username p) then
    (false, exactMatches ++ [p])
  else (true, exactMatches).

(** [data], the list handed to [UserList]. *)
Definition data (s : State) : list UserProfile :=
  if isSearch s then
    let exactMatches := [] in
    let '(results, exactMatches) :=
      Array_filter (filterByTerm (selectedCount s) (term s))
        (filterProfilesMatchingTerm (searchResults s) (term s)) exactMatches in
    exactMatches ++ results
  else profiles s.

(** The two parts of the list of a search, as conditions on a profile:
    [promoted] for those [filterByTerm] pushes onto [exactMatches],
    [remaining] for those it keeps. *)
Definition promoted (n : nat) (term : string) (p : UserProfile) : bool :=
  negb ((0 <? n)%nat && String.eqb (id p) (currentUserId props))
  && (String.eqb (username p) term || String.prefix term (username p)).

Definition remaining (n : nat) (term : string) (p : UserProfile) : bool :=
  negb ((0 <? n)%nat && String.eqb (id p) (currentUserId props))
  && negb (String.eqb (username p) term || String.prefix term (username p)).

End DisplayedList.

(** Modelled from the spec: a match of a term and a profile, for
    [filterProfilesMatchingTerm] above.  The spec's example has "albert"
    and "alice" match the term "al" and "ball" not match it, so a term
    inside a name is no match: the username starts with the term. *)
Definition usernameStartsWith (term : string) (p : UserProfile) : bool :=
  String.prefix term (username p).

(** Modelled from the spec: the text [alertErrorWithFallback] of
    [@utils/draft], which is not among the sources, shows to the user: the
    error's message, "falling back to a generic message if the error
    carries no displayable reason". *)
Definition alertText (error : Error) (fallback : string) : string :=
  default fallback (reason error).

(** The alerts a list of calls shows, by their text. *)
Definition alerts (calls : list Call) : list string :=
  flat_map (λ c, match c with
                 | alertErrorWithFallback e fallback => [alertText e fallback]
                 | _ => []
                 end) calls.

(** The requests for a page of profiles among a list of calls. *)
Definition isFetch (c : Call) : bool :=
  match c with fetchProfilesNotInChannel _ _ _ _ _ _ => true | _ => false end.

(** The pending timers are at most the one [searchTimeoutId] refers to. *)
Definition timersTracked (w : World) : Prop :=
  timers w = []
  ∨ ∃ tm, timers w = [tm] ∧ searchTimeoutId (screen w) = Some (handle tm).

(** ** What is rendered *)

(** [showNoResults], as [UserList] is given it. *)
Definition showNoResults (s : State) : bool :=
  negb (loading s) && negb (page s =? -1)%Z.

(** The three things the component can render: the spinner alone while a
    submission is under way; otherwise the list and the tray of selected
    users, under the search bar once there are profiles. *)
Inductive View :=
| LoadingView
| ListView (searchBar : option string) (noResults : bool) (toast : bool).

Definition render (s : State) : View :=
  if startingAddPeople s then LoadingView
  else ListView (if hasProfiles s then Some (term s) else None)
         (showNoResults s) (showToast s).

(** ** Notions for the runs *)

Definition isAddMembers (c : Call) : bool :=
  match c with addMembersToChannel _ _ _ _ _ => true | _ => false end.

Definition isToastChanged (e : Event) : bool :=
  match e with ToastChanged _ => true | _ => false end.

Definition isAddMembersResolved (e : Event) : bool :=
  match e with AddMembersResolved _ => true | _ => false end.

Definition isMount (e : Event) : bool :=
  match e with Mount => true | _ => false end.

(** The button pressed with an argument of its own. *)
Definition isAddPressedWith (e : Event) : bool :=
  match e with AddPressed (Some _) => true | _ => false end.

(** The events that set or end a timer: a text that is not empty, and a
    timer going off. *)
Definition touchesTimers (e : Event) : bool :=
  match e with
  | SearchTextChanged text => truthy text
  | TimerFired _ => true
  | _ => false
  end.

(** The pages that reach a mounted component in a list of events, [m]
    telling whether it is mounted at first. *)
Fixpoint delivered (m : bool) (events : list Event) : list (list UserProfile) :=
  match events with
  | [] => []
  | Mount :: events' => delivered true events'
  | Unmount :: events' => delivered false events'
  | ProfilesLoaded users :: events' =>
      (if m then [users] else []) ++ delivered m events'
  | _ :: events' => delivered m events'
  end.

(** The body of [getProfiles] as the debounced function runs it: [loading]
    and [term] are the values of the render in which the callback was
    made, which the closure holds; [next], [page] and [mounted] are refs,
    read when the body runs.  [getProfiles] above is this body with the
    values of the state it runs on. *)
Definition getProfilesBody (General : Constants) (props : Props)
    (loading0 : bool) (term0 : string) (s : State) : State * list Call :=
  if next s && negb loading0 && negb (truthy term0) && mounted s then
    (setLoading true s,
     [fetchProfilesNotInChannel (serverUrl props) (currentTeamId props)
        (currentChannelId props) (groupConstrained props)
        (page s + 1)%Z (PROFILE_CHUNK_SIZE General)])
  else (s, []).

(** The fetches in flight after a list of events, [n] being in flight
    before: every request for a page adds one, every response takes one
    away. *)
Fixpoint fetchesInFlight (General : Constants) (props : Props)
    (events : list Event) (w : World) (n : nat) : nat :=
  match events with
  | [] => n
  | e :: events' =>
      let '(w1, calls) := dispatch General props w e in
      let answered := match e with ProfilesLoaded _ => 1%nat | _ => 0%nat end in
      fetchesInFlight General props events' w1
        (n - answered + length (List.filter isFetch calls))%nat
  end.

(** The ids a call to [addMembersToChannel] carries. *)
Definition idsOf (c : Call) : list string :=
  match c with addMembersToChannel _ _ ids _ _ => ids | _ => [] end.

(** ** Values to run the screen with *)

Definition testGeneral : Constants :=
  {| MAX_USERS_ADD_TO_CHANNEL := 2; PROFILE_CHUNK_SIZE := 100;
     SEARCH_TIMEOUT_MILLISECONDS := 500 |}.

Definition testProps : Props :=
  {| serverUrl := "https://chat.example.com"; currentChannelId := "channel1";
     groupConstrained := false; currentTeamId := "team1"; currentUserId := "me" |}.

Definition albert : UserProfile := {| id := "u1"; username := "albert" |}.
Definition alice : UserProfile := {| id := "u2"; username := "alice" |}.
Definition ball : UserProfile := {| id := "u3"; username := "ball" |}.

(** The screen mounted, with a first page of three profiles. *)
Definition browsing : World :=
  (run testGeneral testProps
     [Mount; FetchMore; ProfilesLoaded [albert; alice; ball]] initialWorld).1.

(** * Properties *)

(** ** The selection *)

Section Selection.
Context (G : Constants).
Implicit Types (s : State) (user : UserProfile) (current : gmap string UserProfile).

Lemma selectUpdater_selected n user current p :
  current !! id user = Some p →
  selectUpdater G n user current = (delete (id user) current, false).
Proof.
  intros Hp. unfold selectUpdater, removeProfileFromList.
  rewrite bool_decide_eq_true_2; [done | by eexists].
Qed.

Lemma selectUpdater_rejected n user current :
  current !! id user = None →
  (MAX_SELECTED_USERS G ≤ n)%nat →
  selectUpdater G n user current = (current, true).
Proof.
  intros Hp Hn. unfold selectUpdater.
  rewrite bool_decide_eq_false_2; [| rewrite Hp; by intros [? ?]].
  simpl. by rewrite (leb_correct _ _ Hn).
Qed.

Lemma selectUpdater_added n user current :
  current !! id user = None →
  (n < MAX_SELECTED_USERS G)%nat →
  selectUpdater G n user current = (<[id user := user]> current, false).
Proof.
  intros Hp Hn. unfold selectUpdater.
  rewrite bool_decide_eq_false_2; [| rewrite Hp; by intros [? ?]].
  simpl. rewrite leb_correct_conv; done.
Qed.

Lemma selectedIds_rendered prev s : selectedIds (rendered G prev s) = selectedIds s.
Proof. unfold rendered. by destruct (Bool.eqb _ _). Qed.

Lemma selectedIds_handleSelectProfile s user :
  selectedIds (handleSelectProfile G user s)
  = (selectUpdater G (selectedCount s) user (selectedIds s)).1.
Proof.
  unfold handleSelectProfile. simpl.
  by destruct (selectUpdater _ _ _ _) as [m [|]].
Qed.

Lemma selectedIds_toggle s user :
  selectedIds (toggle G s user)
  = (selectUpdater G (selectedCount s) user (selectedIds s)).1.
Proof.
  unfold toggle. by rewrite selectedIds_rendered, selectedIds_handleSelectProfile.
Qed.

(** The three cases of a press on a row. *)
Lemma toggle_cases s user :
  (∃ p, selectedIds s !! id user = Some p
        ∧ selectedIds (toggle G s user) = delete (id user) (selectedIds s))
  ∨ (selectedIds s !! id user = None
     ∧ (MAX_SELECTED_USERS G ≤ selectedCount s)%nat
     ∧ selectedIds (toggle G s user) = selectedIds s)
  ∨ (selectedIds s !! id user = None
     ∧ (selectedCount s < MAX_SELECTED_USERS G)%nat
     ∧ selectedIds (toggle G s user) = <[id user := user]> (selectedIds s)).
Proof.
  rewrite selectedIds_toggle.
  destruct (selectedIds s !! id user) as [p|] eqn:Hp.
  - left. exists p. by rewrite (selectUpdater_selected _ _ _ p).
  - right. destruct (le_lt_dec (MAX_SELECTED_USERS G) (selectedCount s)) as [Hn|Hn].
    + left. by rewrite selectUpdater_rejected.
    + right. by rewrite selectUpdater_added.
Qed.

Lemma toggle_within_limit s user :
  (selectedCount s ≤ MAX_SELECTED_USERS G)%nat →
  (selectedCount (toggle G s user) ≤ MAX_SELECTED_USERS G)%nat.
Proof.
  intros Hs. unfold selectedCount in *.
  destruct (toggle_cases s user) as [(p & Hp & ->) | [(Hp & Hn & ->) | (Hp & Hn & ->)]].
  - rewrite map_size_delete_Some by (by exists p). lia.
  - done.
  - rewrite map_size_insert_None by done. unfold selectedCount in Hn. lia.
Qed.

Lemma toggles_within_limit users s :
  (selectedCount s ≤ MAX_SELECTED_USERS G)%nat →
  (selectedCount (foldl (toggle G) s users) ≤ MAX_SELECTED_USERS G)%nat.
Proof.
  revert s. induction users as [|user users IH]; intros s Hs; simpl; [done |].
  apply IH. by apply toggle_within_limit.
Qed.

Lemma showToast_toggle_rejected s user :
  selectedIds s !! id user = None →
  (MAX_SELECTED_USERS G ≤ selectedCount s)%nat →
  showToast (toggle G s user) = true.
Proof.
  intros Hp Hn. unfold toggle, rendered, handleSelectProfile. simpl.
  rewrite selectUpdater_rejected by done.
  unfold atLimit, selectedCount. simpl.
  destruct (Bool.eqb _ _); simpl; [done |].
  by apply leb_correct.
Qed.

(** C1.  Whatever rows are pressed, one after the other, starting with
    nothing selected, the selection never holds more than
    [MAX_SELECTED_USERS] users; and a press on a user who is not selected,
    when the selection is at the limit, leaves the selection as it is and
    sets [showToast]. *)
Theorem selection_within_limit :
  (∀ s users,
     selectedIds s = ∅ →
     (selectedCount (foldl (toggle G) s users) ≤ MAX_SELECTED_USERS G)%nat)
  ∧ (∀ s user,
       selectedIds s !! id user = None →
       (MAX_SELECTED_USERS G ≤ selectedCount s)%nat →
       selectedIds (toggle G s user) = selectedIds s
       ∧ showToast (toggle G s user) = true).
Proof.
  split.
  - intros s users Hs. apply toggles_within_limit.
    unfold selectedCount. rewrite Hs, map_size_empty. lia.
  - intros s user Hp Hn. split.
    + rewrite selectedIds_toggle. by rewrite selectUpdater_rejected.
    + by apply showToast_toggle_rejected.
Qed.

(** Two presses on the same row, for a selection within the limit: the
    selection is as before, but for the profile held under the user's id,
    which is now the one pressed. *)
Lemma toggle_twice_selected s user :
  (selectedCount s ≤ MAX_SELECTED_USERS G)%nat →
  selectedIds (toggle G (toggle G s user) user)
  = match selectedIds s !! id user with
    | Some _ => <[id user := user]> (selectedIds s)
    | None => selectedIds s
    end.
Proof.
  intros Hs.
  destruct (toggle_cases s user) as [(p & Hp & H1) | [(Hp & Hn & H1) | (Hp & Hn & H1)]].
  - assert (Hsize : selectedCount (toggle G s user) = pred (selectedCount s)).
    { unfold selectedCount. rewrite H1. apply map_size_delete_Some. by exists p. }
    assert (Hpos : selectedCount s ≠ 0%nat).
    { unfold selectedCount. intros H0. apply map_size_empty_inv in H0.
      rewrite H0 in Hp. by rewrite lookup_empty in Hp. }
    rewrite Hp, selectedIds_toggle, selectUpdater_added.
    + simpl. by rewrite H1, insert_delete_eq.
    + rewrite H1. apply lookup_delete_eq.
    + lia.
  - rewrite Hp, selectedIds_toggle, selectUpdater_rejected; simpl.
    + by rewrite H1.
    + by rewrite H1.
    + unfold selectedCount. by rewrite H1.
  - rewrite Hp, selectedIds_toggle, (selectUpdater_selected _ _ _ user).
    + simpl. rewrite H1, delete_insert_eq. by apply delete_id.
    + rewrite H1. apply lookup_insert_eq.
Qed.

(** C9.  Pressing the row of a user twice in a row gives back the
    selection there was, for every selection within the limit: the same
    ids are selected, and the selection is the same map when the profile
    it held under the user's id, if any, is the one pressed. *)
Theorem toggle_twice s user :
  (selectedCount s ≤ MAX_SELECTED_USERS G)%nat →
  dom (selectedIds (toggle G (toggle G s user) user)) = dom (selectedIds s)
  ∧ ((∀ p, selectedIds s !! id user = Some p → p = user) →
     selectedIds (toggle G (toggle G s user) user) = selectedIds s).
Proof.
  intros Hs. rewrite (toggle_twice_selected s user Hs).
  destruct (selectedIds s !! id user) as [p|] eqn:Hp; [| done].
  split.
  - rewrite dom_insert_L. apply subseteq_union_1_L, singleton_subseteq_l.
    apply elem_of_dom. by exists p.
  - intros Hsame. apply insert_id. by rewrite Hp, (Hsame p eq_refl).
Qed.

(** C10.  Every call of [handleSelectProfile] leaves the term empty, the
    search results empty and [loading] false, whether it adds the user,
    removes the user or turns the press down; the render that follows
    keeps them so. *)
Theorem select_clears_search s user :
  (term (handleSelectProfile G user s) = ""
   ∧ searchResults (handleSelectProfile G user s) = []
   ∧ loading (handleSelectProfile G user s) = false)
  ∧ (term (toggle G s user) = ""
     ∧ searchResults (toggle G s user) = []
     ∧ loading (toggle G s user) = false).
Proof.
  unfold toggle, rendered, handleSelectProfile. simpl.
  destruct (selectUpdater _ _ _ _) as [m [|]]; destruct (Bool.eqb _ _); done.
Qed.

End Selection.

(** ** The selection along a run *)

Section SelectionAlongRuns.
Context (G : Constants) (props : Props).
Implicit Types (s : State) (w : World) (e : Event).

Lemma selectedCount_handler e w :
  (selectedCount (screen w) ≤ MAX_SELECTED_USERS G)%nat →
  (selectedCount (screen (handler G props e w).1) ≤ MAX_SELECTED_USERS G)%nat.
Proof.
  intros Hw.
  destruct e as [ | | | users | i | user | text | | | t | found | sel | err | shown];
    cbn [handler fst].
  6: { cbn [onScreen screen]. unfold selectedCount.
       rewrite selectedIds_handleSelectProfile, <- selectedIds_toggle.
       by apply toggle_within_limit. }
  5: { cbn [onScreen screen]. unfold selectedCount in *.
       unfold handleRemoveProfile, removeProfileFromList. simpl.
       destruct (selectedIds (screen w) !! i) as [p|] eqn:Hi.
       - rewrite map_size_delete_Some by (by exists p). lia.
       - by rewrite map_size_delete_None. }
  all: unfold onState, getProfiles, loadedProfiles, search, searchUsers, onSearch, fire,
    startAddPeople, startAddPeople_resolved, addPeopleToChannel_resolved,
    setTimeout, clearTimeout; simpl.
  all: repeat case_match; simplify_eq/=; done.
Qed.

Lemma selectedCount_dispatch e w :
  (selectedCount (screen w) ≤ MAX_SELECTED_USERS G)%nat →
  (selectedCount (screen (dispatch G props w e).1) ≤ MAX_SELECTED_USERS G)%nat.
Proof.
  intros Hw. unfold dispatch.
  pose proof (selectedCount_handler e w Hw) as H.
  destruct (handler G props e w) as [w' calls]. simpl in *.
  unfold selectedCount in *. by rewrite selectedIds_rendered.
Qed.

(** Whatever the screen is given to handle, from its first render on, the
    selection holds at most [MAX_SELECTED_USERS] users. *)
Theorem selection_within_limit_along_runs events :
  (selectedCount (screen (run G props events initialWorld).1) ≤ MAX_SELECTED_USERS G)%nat.
Proof.
  assert (H : ∀ w, (selectedCount (screen w) ≤ MAX_SELECTED_USERS G)%nat →
                   (selectedCount (screen (run G props events w).1)
                    ≤ MAX_SELECTED_USERS G)%nat).
  { induction events as [|e events IH]; intros w Hw; simpl; [done |].
    pose proof (selectedCount_dispatch e w Hw) as Hd.
    destruct (dispatch G props w e) as [w1 calls1].
    specialize (IH w1 Hd).
    by destruct (run G props events w1) as [w2 calls2]. }
  apply H. unfold selectedCount. simpl. rewrite map_size_empty. lia.
Qed.

End SelectionAlongRuns.

(** ** The submission *)

Section Submission.
Context (G : Constants) (props : Props).
Implicit Types (s : State) (e : Error) (w : World).

Lemma Object_keys_nil {V} (m : gmap string V) : Object_keys m = [] ↔ m = ∅.
Proof.
  unfold Object_keys. rewrite <- map_to_list_empty_iff. split.
  - apply fmap_nil_inv.
  - by intros ->.
Qed.

Lemma length_eqb_0 {A} (l : list A) : l ≠ [] → (length l =? 0)%nat = false.
Proof. by destruct l. Qed.

Lemma rendered_same_selection prev s :
  selectedIds s = selectedIds prev → rendered G prev s = s.
Proof.
  intros H. unfold rendered, atLimit, selectedCount.
  by rewrite H, Bool.eqb_reflx.
Qed.

Lemma startAddPeople_without_ids selectedId s :
  startingAddPeople s = false →
  idsToUse selectedId s = [] →
  startAddPeople props selectedId s = (s, []).
Proof.
  intros Hflag Hids. unfold startAddPeople. rewrite Hflag, Hids. simpl.
  f_equal. destruct s; simpl in *. by subst.
Qed.

Lemma dispatch_AddPressed selectedId w :
  startingAddPeople (screen w) = false →
  idsToUse selectedId (screen w) ≠ [] →
  dispatch G props w (AddPressed selectedId)
  = (onScreen (setStartingAddPeople true) w,
     [addPeopleToChannel props (idsToUse selectedId (screen w))]).
Proof.
  intros Hflag Hids. unfold dispatch, handler, onState, startAddPeople.
  rewrite Hflag, (length_eqb_0 _ Hids).
  destruct w as [s ts f]. unfold onScreen. simpl.
  by rewrite rendered_same_selection.
Qed.

Lemma dispatch_AddMembersResolved error w :
  dispatch G props w (AddMembersResolved error)
  = (onScreen (λ s, (startAddPeople_resolved error s).1) w,
     (startAddPeople_resolved error (screen w)).2).
Proof.
  unfold dispatch, handler, onState.
  destruct w as [s ts f]. unfold onScreen. simpl.
  destruct (startAddPeople_resolved error s) as [s2 calls] eqn:Hres. simpl.
  rewrite rendered_same_selection; [done |].
  unfold startAddPeople_resolved in Hres.
  destruct (addPeopleToChannel_resolved error) as [calls' [|]]; by simplify_eq/=.
Qed.

(** A submission, from the press on the button to the response. *)
Lemma submission_run selectedId error w :
  startingAddPeople (screen w) = false →
  idsToUse selectedId (screen w) ≠ [] →
  run G props [AddPressed selectedId; AddMembersResolved error] w
  = (onScreen (λ s, (startAddPeople_resolved error (setStartingAddPeople true s)).1) w,
     addPeopleToChannel props (idsToUse selectedId (screen w))
     :: (startAddPeople_resolved error (setStartingAddPeople true (screen w))).2).
Proof.
  intros Hflag Hids. simpl.
  rewrite dispatch_AddPressed, dispatch_AddMembersResolved by done.
  by rewrite app_nil_r.
Qed.

(** C6.  A submission with no id to use makes no call at all (none to
    [addMembersToChannel], no alert, no closing of the screen) and ends
    with [startingAddPeople] false, the screen being as it was before the
    press.  A submission is a call of [startAddPeople] while none is under
    way: the button that calls it is rendered only while
    [startingAddPeople] is false. *)
Theorem submit_without_ids selectedId w :
  startingAddPeople (screen w) = false →
  idsToUse selectedId (screen w) = [] →
  (startAddPeople props selectedId (screen w)).2 = []
  ∧ startingAddPeople (startAddPeople props selectedId (screen w)).1 = false
  ∧ dispatch G props w (AddPressed selectedId) = (w, []).
Proof.
  intros Hflag Hids.
  pose proof (startAddPeople_without_ids selectedId (screen w) Hflag Hids) as H.
  rewrite H. split; [done |]. split; [done |].
  unfold dispatch, handler, onState. rewrite H.
  destruct w as [s ts f]. unfold onScreen. simpl.
  by rewrite rendered_same_selection.
Qed.

(** C7.  When [addMembersToChannel] resolves with an error, the rest of
    [startAddPeople] makes one call, the alert, whose text is the reason
    the error carries or else the message of [messages.error]; the screen
    is not closed, and [startingAddPeople] is set back to false, nothing
    else of the state being touched.  So a submission that fails is the
    request, then the alert, and leaves [startingAddPeople] false. *)
Theorem failed_submission :
  (∀ e s,
     (startAddPeople_resolved (Some e) s).2 = [alertErrorWithFallback e messages_error]
     ∧ alerts (startAddPeople_resolved (Some e) s).2
       = [match reason e with Some text => text | None => messages_error end]
     ∧ (startAddPeople_resolved (Some e) s).1 = setStartingAddPeople false s)
  ∧ (∀ selectedId e w,
       startingAddPeople (screen w) = false →
       idsToUse selectedId (screen w) ≠ [] →
       (run G props [AddPressed selectedId; AddMembersResolved (Some e)] w).2
       = [addMembersToChannel (serverUrl props) (currentChannelId props)
            (idsToUse selectedId (screen w)) "" false;
          alertErrorWithFallback e messages_error]
       ∧ startingAddPeople
           (screen (run G props [AddPressed selectedId; AddMembersResolved (Some e)] w).1)
         = false).
Proof.
  split.
  - intros e s. unfold startAddPeople_resolved, alerts, alertText. simpl.
    split; [done |]. split; [by destruct (reason e) | done].
  - intros selectedId e w Hflag Hids.
    by rewrite (submission_run selectedId (Some e) w Hflag Hids).
Qed.

(** C8.  When [addMembersToChannel] resolves with no error, the rest of
    [startAddPeople] is [close], once: the keyboard is dismissed and the
    top screen popped; no alert is shown and the state, with it
    [startingAddPeople], is left as it is.  So a submission that succeeds
    is the request, then [close], and leaves [startingAddPeople] true. *)
Theorem successful_submission :
  (∀ s,
     (startAddPeople_resolved None s).2 = [Keyboard_dismiss; popTopScreen]
     ∧ alerts (startAddPeople_resolved None s).2 = []
     ∧ (startAddPeople_resolved None s).1 = s)
  ∧ (∀ selectedId w,
       startingAddPeople (screen w) = false →
       idsToUse selectedId (screen w) ≠ [] →
       (run G props [AddPressed selectedId; AddMembersResolved None] w).2
       = [addMembersToChannel (serverUrl props) (currentChannelId props)
            (idsToUse selectedId (screen w)) "" false;
          Keyboard_dismiss; popTopScreen]
       ∧ startingAddPeople
           (screen (run G props [AddPressed selectedId; AddMembersResolved None] w).1)
         = true).
Proof.
  split; [done |].
  intros selectedId w Hflag Hids.
  by rewrite (submission_run selectedId None w Hflag Hids).
Qed.

End Submission.

(** ** Pagination *)

Section Pagination.
Context (G : Constants) (props : Props).
Implicit Types (s : State) (w : World) (e : Event).

Lemma truthy_true (t : string) : truthy t = true ↔ t ≠ "".
Proof.
  unfold truthy. rewrite negb_true_iff. split.
  - intros H ->. by rewrite String.eqb_refl in H.
  - intros H. by apply String.eqb_neq.
Qed.

Lemma getProfiles_idle s :
  loading s = true ∨ term s ≠ "" ∨ next s = false ∨ mounted s = false →
  getProfiles G props s = (s, []).
Proof.
  unfold getProfiles. intros [H | [H | [H | H]]].
  - rewrite H. by destruct (next s).
  - apply truthy_true in H. rewrite H. by destruct (next s), (loading s).
  - by rewrite H.
  - rewrite H. by destruct (next s), (loading s), (truthy (term s)).
Qed.

Lemma getProfiles_requests s :
  loading s = false → term s = "" → next s = true → mounted s = true →
  getProfiles G props s
  = (setLoading true s,
     [fetchProfilesNotInChannel (serverUrl props) (currentTeamId props)
        (currentChannelId props) (groupConstrained props)
        (page s + 1)%Z (PROFILE_CHUNK_SIZE G)]).
Proof. unfold getProfiles. by intros -> -> -> ->. Qed.

Lemma loadedProfiles_mounted users s :
  mounted s = true →
  profiles (loadedProfiles users s) = profiles s ++ users
  ∧ page (loadedProfiles users s) = (page s + 1)%Z
  ∧ next (loadedProfiles users s) = (if users is [] then false else next s)
  ∧ loading (loadedProfiles users s) = false.
Proof. unfold loadedProfiles. intros ->. by destruct users. Qed.

Lemma loadedProfiles_unmounted users s :
  mounted s = false → loadedProfiles users s = s.
Proof. unfold loadedProfiles. by intros ->. Qed.

Lemma next_rendered prev s : next (rendered G prev s) = next s.
Proof. unfold rendered. by destruct (Bool.eqb _ _). Qed.

(** Nothing sets [next] back to true. *)
Lemma next_handler w e :
  next (screen w) = false → next (screen (handler G props e w).1) = false.
Proof.
  intros Hn. destruct e; simpl; try done.
  all: unfold onState, getProfiles, loadedProfiles, handleSelectProfile, search,
    searchUsers, onSearch, fire, startAddPeople, startAddPeople_resolved,
    addPeopleToChannel_resolved, setTimeout, clearTimeout; simpl.
  all: repeat case_match; simplify_eq/=; done.
Qed.

Lemma next_dispatch w e :
  next (screen w) = false → next (screen (dispatch G props w e).1) = false.
Proof.
  intros Hn. unfold dispatch.
  pose proof (next_handler w e Hn) as H.
  destruct (handler G props e w) as [w' calls]. simpl in *.
  by rewrite next_rendered.
Qed.

Lemma no_fetch_handler w e :
  next (screen w) = false →
  Forall (λ c, isFetch c = false) (handler G props e w).2.
Proof.
  intros Hn. destruct e; simpl; try by constructor.
  all: unfold onState, getProfiles, search, searchUsers, fire, startAddPeople,
    startAddPeople_resolved, addPeopleToChannel_resolved, addPeopleToChannel,
    close; simpl.
  all: try rewrite Hn; simpl.
  all: repeat case_match; simplify_eq/=; by repeat constructor.
Qed.

Lemma no_fetch_dispatch w e c :
  next (screen w) = false → c ∈ (dispatch G props w e).2 → isFetch c = false.
Proof.
  intros Hn. unfold dispatch.
  pose proof (no_fetch_handler w e Hn) as H.
  destruct (handler G props e w) as [w' calls]. simpl in *.
  rewrite Forall_forall in H. apply H.
Qed.

Lemma no_fetch_run events w c :
  next (screen w) = false → c ∈ (run G props events w).2 → isFetch c = false.
Proof.
  revert w. induction events as [|e events IH]; intros w Hn; simpl.
  - by intros ?%not_elem_of_nil.
  - pose proof (next_dispatch w e Hn) as Hn'.
    pose proof (no_fetch_dispatch w e c Hn) as Hd.
    destruct (dispatch G props w e) as [w1 calls1].
    specialize (IH w1 Hn').
    destruct (run G props events w1) as [w2 calls2]. simpl in *.
    rewrite elem_of_app. intros [H | H]; auto.
Qed.

Lemma getProfiles_body s :
  getProfiles G props s = getProfilesBody G props (loading s) (term s) s.
Proof. done. Qed.

Lemma getProfilesBody_idle (loading0 : bool) (term0 : string) s :
  loading0 = true ∨ term0 ≠ "" ∨ next s = false ∨ mounted s = false →
  getProfilesBody G props loading0 term0 s = (s, []).
Proof.
  unfold getProfilesBody. intros [H | [H | [H | H]]].
  - rewrite H. by destruct (next s).
  - apply truthy_true in H. rewrite H. by destruct (next s), loading0.
  - by rewrite H.
  - rewrite H. by destruct (next s), loading0, (truthy term0).
Qed.

Lemma getProfilesBody_requests (loading0 : bool) (term0 : string) s :
  loading0 = false → term0 = "" → next s = true → mounted s = true →
  getProfilesBody G props loading0 term0 s
  = (setLoading true s,
     [fetchProfilesNotInChannel (serverUrl props) (currentTeamId props)
        (currentChannelId props) (groupConstrained props)
        (page s + 1)%Z (PROFILE_CHUNK_SIZE G)]).
Proof. unfold getProfilesBody. by intros -> -> -> ->. Qed.

Lemma next_run events w :
  next (screen w) = false → next (screen (run G props events w).1) = false.
Proof.
  revert w. induction events as [|e events IH]; intros w Hn; simpl; [done |].
  pose proof (next_dispatch w e Hn) as Hn'.
  destruct (dispatch G props w e) as [w1 calls1].
  specialize (IH w1 Hn').
  by destruct (run G props events w1) as [w2 calls2].
Qed.

Lemma fetchesInFlight_app events1 events2 w (n : nat) :
  fetchesInFlight G props (events1 ++ events2) w n
  = fetchesInFlight G props events2 (run G props events1 w).1
      (fetchesInFlight G props events1 w n).
Proof.
  revert w n. induction events1 as [|e events1 IH]; intros w n; simpl; [done |].
  destruct (dispatch G props w e) as [w1 calls1]. rewrite IH.
  by destruct (run G props events1 w1) as [w2 calls2].
Qed.

Lemma fetchesInFlight_request w (n : nat) :
  loading (screen w) = false → term (screen w) = "" →
  next (screen w) = true → mounted (screen w) = true →
  fetchesInFlight G props [FetchMore] w n = S n.
Proof.
  intros Hl Ht Hn Hm. simpl. unfold dispatch, handler, onState.
  rewrite (getProfiles_requests (screen w) Hl Ht Hn Hm). simpl. lia.
Qed.

(** C4, as the code has it.  [getProfiles] does nothing when [loading] is
    set or there is a search term (both as the closure holds them, from
    the render in which the callback was made), when [next] is false or
    when the component is not mounted.  In a run of the screen, when none
    of these holds and no fetch is in flight, it sets [loading] and requests
    the chunk of [PROFILE_CHUNK_SIZE] profiles at page [page + 1], which
    is then the one fetch in flight.  The
    response, when it comes to a mounted component, is appended to
    [profiles], [page] is incremented, [loading] is cleared and [next] is
    set to false if the chunk is empty.  Once an empty chunk has come,
    whatever happens next, no request for a chunk is made any more,
    whatever the closure of [getProfiles] holds. *)
Theorem fetchMore_contract :
  (∀ loading0 term0 s,
     loading0 = true ∨ term0 ≠ "" ∨ next s = false ∨ mounted s = false →
     getProfilesBody G props loading0 term0 s = (s, []))
  ∧ (∀ events loading0 term0,
       fetchesInFlight G props events initialWorld 0 = 0%nat →
       loading0 = false → term0 = "" →
       next (screen (run G props events initialWorld).1) = true →
       mounted (screen (run G props events initialWorld).1) = true →
       getProfilesBody G props loading0 term0 (screen (run G props events initialWorld).1)
       = (setLoading true (screen (run G props events initialWorld).1),
          [fetchProfilesNotInChannel (serverUrl props) (currentTeamId props)
             (currentChannelId props) (groupConstrained props)
             (page (screen (run G props events initialWorld).1) + 1)%Z
             (PROFILE_CHUNK_SIZE G)])
       ∧ (loading (screen (run G props events initialWorld).1) = loading0 →
          term (screen (run G props events initialWorld).1) = term0 →
          fetchesInFlight G props (events ++ [FetchMore]) initialWorld 0 = 1%nat))
  ∧ (∀ s users, mounted s = true →
        profiles (loadedProfiles users s) = profiles s ++ users
        ∧ page (loadedProfiles users s) = (page s + 1)%Z
        ∧ next (loadedProfiles users s) = (if users is [] then false else next s)
        ∧ loading (loadedProfiles users s) = false)
  ∧ (∀ w events,
        mounted (screen w) = true →
        (∀ c, c ∈ (run G props events (dispatch G props w (ProfilesLoaded [])).1).2 →
              isFetch c = false)
        ∧ (∀ loading0 term0,
             (getProfilesBody G props loading0 term0
                (screen (run G props events
                           (dispatch G props w (ProfilesLoaded [])).1).1)).2 = [])).
Proof.
  split; [exact getProfilesBody_idle |].
  split.
  { intros events loading0 term0 H0 Hl Ht Hn Hm.
    split; [by apply getProfilesBody_requests |].
    intros Hl' Ht'. rewrite fetchesInFlight_app, H0.
    apply fetchesInFlight_request; congruence. }
  split; [exact (λ s users, loadedProfiles_mounted users s) |].
  intros w events Hm.
  assert (Hn : next (screen (dispatch G props w (ProfilesLoaded [])).1) = false).
  { unfold dispatch. simpl. rewrite next_rendered. simpl.
    unfold loadedProfiles. by rewrite Hm. }
  split.
  - intros c. by apply no_fetch_run.
  - intros loading0 term0. rewrite getProfilesBody_idle; [done |].
    right. right. left. by apply next_run.
Qed.

End Pagination.

(** The response of [fetchProfilesNotInChannel] is dropped whole when the
    component is not mounted. *)
Theorem profiles_response_after_unmount users s :
  mounted s = false → loadedProfiles users s = s.
Proof. apply loadedProfiles_unmounted. Qed.

(** ** The delayed search *)

Section DelayedSearch.
Context (G : Constants) (props : Props).
Implicit Types (s : State) (w : World) (e : Event) (t : Timeout).

Lemma searchTimeoutId_rendered prev s :
  searchTimeoutId (rendered G prev s) = searchTimeoutId s.
Proof. unfold rendered. by destruct (Bool.eqb _ _). Qed.

Lemma filter_other_handle (tm : Timer) :
  filter (λ x, handle x ≠ handle tm) [tm] = [].
Proof. rewrite filter_cons. by rewrite decide_False by (by intros H). Qed.

Lemma onSearch_schedules text w :
  timersTracked w → text ≠ "" →
  timers (onSearch G text w)
  = [{| handle := fresh w; delay := SEARCH_TIMEOUT_MILLISECONDS G; searchText := text |}]
  ∧ searchTimeoutId (screen (onSearch G text w)) = Some (fresh w).
Proof.
  intros Hw Ht. unfold onSearch.
  rewrite (proj2 (truthy_true text) Ht). simpl.
  destruct Hw as [Hw | (tm & Hw & Href)].
  - destruct (searchTimeoutId (screen w)); simpl; rewrite Hw; done.
  - rewrite Href. simpl. rewrite Hw, filter_other_handle. done.
Qed.

Lemma onSearch_clears w :
  timers (onSearch G "" w) = timers w
  ∧ searchTimeoutId (screen (onSearch G "" w)) = searchTimeoutId (screen w).
Proof. done. Qed.

Lemma timersTracked_onSearch text w :
  timersTracked w → timersTracked (onSearch G text w).
Proof.
  intros Hw. destruct (decide (text = "")) as [-> | Ht].
  - destruct (onSearch_clears w) as [Ht Hr]. unfold timersTracked.
    rewrite Ht, Hr. exact Hw.
  - destruct (onSearch_schedules text w Hw Ht) as [Ht' Hr].
    right. eexists. split; [exact Ht' | by rewrite Hr].
Qed.

Lemma timersTracked_fire t w :
  timersTracked w → timersTracked (fire props t w).1.
Proof.
  intros Hw. unfold fire.
  destruct Hw as [Hw | (tm & Hw & Href)].
  - rewrite Hw. simpl. by left.
  - rewrite Hw. simpl. case_bool_decide as Ht; simpl.
    + left. simpl. rewrite Hw, <- Ht. apply filter_other_handle.
    + right. exists tm. by rewrite Hw.
Qed.

Lemma timersTracked_onScreen (f : State → State) w :
  (∀ s, searchTimeoutId (f s) = searchTimeoutId s) →
  timersTracked w → timersTracked (onScreen f w).
Proof. intros Hf Hw. unfold timersTracked. simpl. by rewrite Hf. Qed.

Lemma timersTracked_onState (f : State → State * list Call) w :
  (∀ s, searchTimeoutId (f s).1 = searchTimeoutId s) →
  timersTracked w → timersTracked (onState f w).1.
Proof.
  intros Hf Hw. unfold onState. specialize (Hf (screen w)).
  destruct (f (screen w)) as [s calls]. unfold timersTracked. simpl in *.
  by rewrite Hf.
Qed.

Lemma timersTracked_handler e w :
  timersTracked w → timersTracked (handler G props e w).1.
Proof.
  intros Hw. destruct e; cbn [handler fst].
  all: first
    [ by apply timersTracked_onSearch
    | by apply timersTracked_fire
    | apply timersTracked_onState; [intros s | done]
    | apply timersTracked_onScreen; [intros s | done] ].
  all: unfold getProfiles, loadedProfiles, handleSelectProfile, search, searchUsers,
    startAddPeople, startAddPeople_resolved, addPeopleToChannel_resolved; simpl.
  all: repeat case_match; simplify_eq/=; done.
Qed.

Lemma timersTracked_dispatch e w :
  timersTracked w → timersTracked (dispatch G props w e).1.
Proof.
  intros Hw. unfold dispatch.
  pose proof (timersTracked_handler e w Hw) as H.
  destruct (handler G props e w) as [w' calls]. simpl in *.
  apply timersTracked_onScreen; [| done].
  intros s. apply searchTimeoutId_rendered.
Qed.

Lemma timersTracked_run events w :
  timersTracked w → timersTracked (run G props events w).1.
Proof.
  revert w. induction events as [|e events IH]; intros w Hw; simpl; [done |].
  pose proof (timersTracked_dispatch e w Hw) as H.
  destruct (dispatch G props w e) as [w1 calls1].
  specialize (IH w1 H).
  by destruct (run G props events w1) as [w2 calls2].
Qed.

Lemma timersTracked_reachable events :
  timersTracked (run G props events initialWorld).1.
Proof. apply timersTracked_run. by left. Qed.

(** C2, as the code has it.  In a run of the screen, a call of [onSearch]
    with a text that is not empty cancels the timer set by the call before
    and sets a new one, so that the only timer pending is the one of this
    call; a call with the empty text sets no timer; and at any time at most
    one timer is pending. *)
Theorem delayed_search_timer :
  (∀ events text,
     text ≠ "" →
     timers (onSearch G text (run G props events initialWorld).1)
     = [{| handle := fresh (run G props events initialWorld).1;
           delay := SEARCH_TIMEOUT_MILLISECONDS G;
           searchText := text |}])
  ∧ (∀ w tm, tm ∈ timers (onSearch G "" w) → tm ∈ timers w)
  ∧ (∀ events, (length (timers (run G props events initialWorld).1) ≤ 1)%nat).
Proof.
  split; [| split].
  - intros events text Ht.
    by destruct (onSearch_schedules text _ (timersTracked_reachable events) Ht).
  - intros w tm. by rewrite (proj1 (onSearch_clears w)).
  - intros events.
    destruct (timersTracked_reachable events) as [-> | (tm & -> & _)]; simpl; lia.
Qed.

End DelayedSearch.

(** ** The displayed list *)

Section DisplayedListFacts.
Context (props : Props) (matches : string → UserProfile → bool).
Implicit Types (s : State) (p : UserProfile) (l : list UserProfile).

Lemma Array_filter_filterByTerm n term l exactMatches :
  Array_filter (filterByTerm props n term) l exactMatches
  = (List.filter (remaining props n term) l,
     exactMatches ++ List.filter (promoted props n term) l).
Proof.
  revert exactMatches. induction l as [|p l IH]; intros exactMatches; simpl.
  - by rewrite app_nil_r.
  - unfold filterByTerm at 1, remaining at 1, promoted at 1.
    destruct ((0 <? n)%nat && String.eqb (id p) (currentUserId props)); simpl.
    + by rewrite IH.
    + destruct (String.eqb (username p) term || String.prefix term (username p)); simpl.
      * rewrite IH. by rewrite <- app_assoc.
      * by rewrite IH.
Qed.

Lemma filter_filter (f g : UserProfile → bool) l :
  List.filter g (List.filter f l) = List.filter (λ p, f p && g p) l.
Proof.
  induction l as [|p l IH]; simpl; [done |].
  destruct (f p); simpl; [| done]. destruct (g p); by rewrite IH.
Qed.

Lemma data_search s :
  isSearch s = true →
  data props matches s
  = List.filter (λ p, matches (term s) p && promoted props (selectedCount s) (term s) p)
      (searchResults s)
    ++ List.filter (λ p, matches (term s) p && remaining props (selectedCount s) (term s) p)
         (searchResults s).
Proof.
  intros Hs. unfold data. rewrite Hs, Array_filter_filterByTerm. simpl.
  unfold filterProfilesMatchingTerm. by rewrite !filter_filter.
Qed.

Lemma data_browse s : isSearch s = false → data props matches s = profiles s.
Proof. intros Hs. unfold data. by rewrite Hs. Qed.

(** What [data] is for the three results of the example, by what the
    helper makes of the third. *)
Lemma data_example s a b c :
  term s = "al" → searchResults s = [a; b; c] → selectedIds s = ∅ →
  username a = "albert" → username b = "alice" → username c = "ball" →
  matches "al" a = true → matches "al" b = true →
  data props matches s = if matches "al" c then [a; b; c] else [a; b].
Proof.
  intros Ht Hr Hsel Ha Hb Hc Hma Hmb.
  rewrite data_search by (unfold isSearch; by rewrite Ht).
  unfold promoted, remaining, selectedCount.
  rewrite Ht, Hr, Hsel, map_size_empty. simpl.
  rewrite Hma, Hmb, Ha, Hb, Hc. simpl.
  by destruct (matches "al" c).
Qed.

(** C5.  With a search term, the displayed list is, of the results the
    helper [filterProfilesMatchingTerm] keeps, first those whose username
    is the term or starts with it, then the others, both in the order of
    the results (the current user being left out of both once somebody is
    selected).  For the term "al", the results "albert", "alice" and "ball"
    and nothing selected, with a helper that keeps the first two and drops
    "ball", the list is "albert", "alice". *)
Theorem displayed_list :
  (∀ s, isSearch s = true →
        data props matches s
        = List.filter (λ p, matches (term s) p && promoted props (selectedCount s) (term s) p)
            (searchResults s)
          ++ List.filter (λ p, matches (term s) p && remaining props (selectedCount s) (term s) p)
               (searchResults s))
  ∧ (∀ s a b c,
        term s = "al" → searchResults s = [a; b; c] → selectedIds s = ∅ →
        username a = "albert" → username b = "alice" → username c = "ball" →
        matches "al" a = true → matches "al" b = true → matches "al" c = false →
        data props matches s = [a; b]
        ∧ username <$> data props matches s = ["albert"; "alice"]).
Proof.
  split; [exact data_search |].
  intros s a b c Ht Hr Hsel Ha Hb Hc Hma Hmb Hmc.
  rewrite (data_example s a b c) by done. rewrite Hmc. simpl.
  by rewrite Ha, Hb.
Qed.

End DisplayedListFacts.

(** ** The screen at work *)

Example browsing_profiles :
  profiles (screen browsing) = [albert; alice; ball]
  ∧ page (screen browsing) = 0%Z
  ∧ loading (screen browsing) = false.
Proof. done. Qed.

Example first_request :
  (run testGeneral testProps [Mount; FetchMore] initialWorld).2
  = [fetchProfilesNotInChannel "https://chat.example.com" "team1" "channel1" false 0 100].
Proof. done. Qed.

Example two_selected :
  selectedIds (foldl (toggle testGeneral) (screen browsing) [albert; alice])
  = {[ "u1" := albert; "u2" := alice ]}.
Proof. by vm_compute. Qed.

(** C2 does not hold as it is stated.  The text "a" is typed, then
    deleted: the timer set for "a" is still pending after the call of
    [onSearch] with the empty text, no timer has taken its place, and
    when it fires the search for "a" is made. *)
Lemma empty_text_leaves_timer :
  let w := (run testGeneral testProps [SearchTextChanged "a"] browsing).1 in
  timers w = [{| handle := 1%positive; delay := 500; searchText := "a" |}]
  ∧ timers (onSearch testGeneral "" w)
    = [{| handle := 1%positive; delay := 500; searchText := "a" |}]
  ∧ (run testGeneral testProps [SearchTextChanged ""; TimerFired 1%positive] w).2
    = [searchProfiles "https://chat.example.com" "a" "team1" "channel1" true].
Proof. done. Qed.

(** C4 does not hold as it is stated.  The screen is unmounted before
    [getProfiles] runs: no fetch is in flight, nothing is loading, there is
    no term and [next] is true, and yet no request is made.  And a page
    requested while the screen was mounted, when it comes after the
    unmount, is not appended to [profiles], nor is [page] incremented. *)
Lemma fetchMore_unmounted :
  let s := screen (run testGeneral testProps [Mount; Unmount] initialWorld).1 in
  let s' := screen (run testGeneral testProps [Mount; FetchMore; Unmount] initialWorld).1 in
  (fetchesInFlight testGeneral testProps [Mount; Unmount] initialWorld 0 = 0%nat
   ∧ loading s = false ∧ term s = "" ∧ next s = true
   ∧ getProfiles testGeneral testProps s = (s, [])
   ∧ getProfilesBody testGeneral testProps false "" s = (s, []))
  ∧ (profiles s' = [] ∧ page s' = (-1)%Z
     ∧ profiles (loadedProfiles [albert] s') = []
     ∧ page (loadedProfiles [albert] s') = (-1)%Z).
Proof. done. Qed.

(** C3, where the code departs from it.  A search is under way when the
    screen is unmounted.  When its response comes, [searchResults] and
    [loading] are set all the same, [mounted] being false; the response of
    [fetchProfilesNotInChannel], in the same world, is dropped. *)
Theorem search_response_after_unmount :
  let w := (run testGeneral testProps
              [SearchTextChanged "al"; TimerFired 1%positive; Unmount] browsing).1 in
  let w' := (dispatch testGeneral testProps w (SearchResolved (Some [albert; alice]))).1 in
  mounted (screen w) = false
  ∧ searchResults (screen w) = [] ∧ loading (screen w) = true
  ∧ searchResults (screen w') = [albert; alice] ∧ loading (screen w') = false
  ∧ (dispatch testGeneral testProps w (ProfilesLoaded [albert; alice])).1 = w.
Proof. done. Qed.

(** A page is being fetched when a row is pressed: [handleSelectProfile]
    clears [loading], and the next [getProfiles] requests the same page
    once more.  When both responses have come, the page is in [profiles]
    twice and [page] has moved on by two. *)
Theorem page_requested_twice :
  (run testGeneral testProps [FetchMore; SelectProfile albert; FetchMore] browsing).2
  = [fetchProfilesNotInChannel "https://chat.example.com" "team1" "channel1" false 1 100;
     fetchProfilesNotInChannel "https://chat.example.com" "team1" "channel1" false 1 100]
  ∧ profiles (screen (run testGeneral testProps
                        [FetchMore; SelectProfile albert; FetchMore;
                         ProfilesLoaded [ball]; ProfilesLoaded [ball]] browsing).1)
    = [albert; alice; ball; ball; ball]
  ∧ page (screen (run testGeneral testProps
                    [FetchMore; SelectProfile albert; FetchMore;
                     ProfilesLoaded [ball]; ProfilesLoaded [ball]] browsing).1)
    = 2%Z.
Proof. done. Qed.

(** *** Instances of the theorems above *)

Lemma selection_within_limit_witness :
  let s := foldl (toggle testGeneral) (screen browsing) [albert; alice] in
  (selectedIds (screen browsing) = ∅
   ∧ (selectedCount (foldl (toggle testGeneral) (screen browsing) [albert; alice; ball])
      ≤ MAX_SELECTED_USERS testGeneral)%nat)
  ∧ (selectedIds s !! id ball = None
     ∧ (MAX_SELECTED_USERS testGeneral ≤ selectedCount s)%nat
     ∧ selectedIds (toggle testGeneral s ball) = selectedIds s
     ∧ showToast (toggle testGeneral s ball) = true).
Proof.
  intros s.
  assert (H0 : selectedIds (screen browsing) = ∅) by reflexivity.
  assert (H1 : selectedIds s !! id ball = None) by reflexivity.
  assert (H2 : (MAX_SELECTED_USERS testGeneral ≤ selectedCount s)%nat)
    by (vm_compute; lia).
  destruct (selection_within_limit testGeneral) as [Hall Hfull].
  split; [split; [exact H0 | exact (Hall _ [albert; alice; ball] H0)] |].
  split; [exact H1 |]. split; [exact H2 |]. exact (Hfull s ball H1 H2).
Defined.

Lemma toggle_twice_witness :
  let s := foldl (toggle testGeneral) (screen browsing) [albert; alice] in
  (selectedCount s ≤ MAX_SELECTED_USERS testGeneral)%nat
  ∧ selectedIds s !! id albert = Some albert
  ∧ dom (selectedIds (toggle testGeneral (toggle testGeneral s albert) albert))
    = dom (selectedIds s)
  ∧ selectedIds (toggle testGeneral (toggle testGeneral s albert) albert) = selectedIds s.
Proof.
  intros s.
  assert (H1 : (selectedCount s ≤ MAX_SELECTED_USERS testGeneral)%nat)
    by (vm_compute; lia).
  assert (H2 : selectedIds s !! id albert = Some albert) by reflexivity.
  split; [exact H1 |]. split; [exact H2 |].
  destruct (toggle_twice testGeneral s albert H1) as [Hdom Hmap].
  split; [exact Hdom |].
  apply Hmap. intros p Hp. rewrite H2 in Hp. by inversion Hp.
Defined.

Lemma submit_without_ids_witness :
  startingAddPeople (screen browsing) = false
  ∧ idsToUse None (screen browsing) = []
  ∧ (startAddPeople testProps None (screen browsing)).2 = []
  ∧ startingAddPeople (startAddPeople testProps None (screen browsing)).1 = false
  ∧ dispatch testGeneral testProps browsing (AddPressed None) = (browsing, []).
Proof.
  assert (H1 : startingAddPeople (screen browsing) = false) by reflexivity.
  assert (H2 : idsToUse None (screen browsing) = []) by reflexivity.
  split; [exact H1 |]. split; [exact H2 |].
  exact (submit_without_ids testGeneral testProps None browsing H1 H2).
Defined.

Lemma failed_submission_witness :
  let w := (run testGeneral testProps [SelectProfile albert] browsing).1 in
  let e := {| reason := None |} in
  startingAddPeople (screen w) = false
  ∧ idsToUse None (screen w) = ["u1"]
  ∧ (run testGeneral testProps [AddPressed None; AddMembersResolved (Some e)] w).2
    = [addMembersToChannel "https://chat.example.com" "channel1" ["u1"] "" false;
       alertErrorWithFallback e messages_error]
  ∧ startingAddPeople
      (screen (run testGeneral testProps
                 [AddPressed None; AddMembersResolved (Some e)] w).1) = false.
Proof.
  intros w e.
  assert (H1 : startingAddPeople (screen w) = false) by reflexivity.
  assert (H2 : idsToUse None (screen w) = ["u1"]) by reflexivity.
  assert (H3 : idsToUse None (screen w) ≠ []) by (rewrite H2; discriminate).
  split; [exact H1 |]. split; [exact H2 |].
  destruct (failed_submission testGeneral testProps) as [_ Hrun].
  destruct (Hrun None e w H1 H3) as [Hcalls Hflag].
  rewrite H2 in Hcalls. split; [exact Hcalls | exact Hflag].
Defined.

Lemma successful_submission_witness :
  let w := (run testGeneral testProps [SelectProfile albert] browsing).1 in
  startingAddPeople (screen w) = false
  ∧ idsToUse None (screen w) = ["u1"]
  ∧ (run testGeneral testProps [AddPressed None; AddMembersResolved None] w).2
    = [addMembersToChannel "https://chat.example.com" "channel1" ["u1"] "" false;
       Keyboard_dismiss; popTopScreen]
  ∧ startingAddPeople
      (screen (run testGeneral testProps [AddPressed None; AddMembersResolved None] w).1)
    = true.
Proof.
  intros w.
  assert (H1 : startingAddPeople (screen w) = false) by reflexivity.
  assert (H2 : idsToUse None (screen w) = ["u1"]) by reflexivity.
  assert (H3 : idsToUse None (screen w) ≠ []) by (rewrite H2; discriminate).
  split; [exact H1 |]. split; [exact H2 |].
  destruct (successful_submission testGeneral testProps) as [_ Hrun].
  destruct (Hrun None w H1 H3) as [Hcalls Hflag].
  rewrite H2 in Hcalls. split; [exact Hcalls | exact Hflag].
Defined.

Lemma fetchMore_contract_witness :
  let loaded := [Mount; FetchMore; ProfilesLoaded [albert; alice; ball]] in
  let s := screen (run testGeneral testProps [FetchMore] browsing).1 in
  let w := (run testGeneral testProps [FetchMore] browsing).1 in
  let later := [FetchMore; SelectProfile albert; FetchMore; SearchSubmitted; FetchMore] in
  (loading s = true ∧ getProfilesBody testGeneral testProps (loading s) (term s) s = (s, []))
  ∧ (fetchesInFlight testGeneral testProps loaded initialWorld 0 = 0%nat
     ∧ next (screen (run testGeneral testProps loaded initialWorld).1) = true
     ∧ mounted (screen (run testGeneral testProps loaded initialWorld).1) = true
     ∧ getProfilesBody testGeneral testProps false ""
         (screen (run testGeneral testProps loaded initialWorld).1)
       = (setLoading true (screen (run testGeneral testProps loaded initialWorld).1),
          [fetchProfilesNotInChannel "https://chat.example.com" "team1" "channel1"
             false 1 100])
     ∧ fetchesInFlight testGeneral testProps (loaded ++ [FetchMore]) initialWorld 0
       = 1%nat)
  ∧ (mounted s = true
     ∧ profiles (loadedProfiles [] s) = [albert; alice; ball] ++ []
     ∧ page (loadedProfiles [] s) = (0 + 1)%Z
     ∧ next (loadedProfiles [] s) = false)
  ∧ (mounted (screen w) = true
     ∧ (∀ c, c ∈ (run testGeneral testProps later
                    (dispatch testGeneral testProps w (ProfilesLoaded [])).1).2 →
             isFetch c = false)
     ∧ (getProfilesBody testGeneral testProps false ""
          (screen (run testGeneral testProps later
                     (dispatch testGeneral testProps w (ProfilesLoaded [])).1).1)).2 = []).
Proof.
  intros loaded s w later.
  destruct (fetchMore_contract testGeneral testProps) as (Hidle & Hreq & Hload & Hend).
  assert (Hl : loading s = true) by reflexivity.
  assert (Hm : mounted s = true) by reflexivity.
  assert (H0 : fetchesInFlight testGeneral testProps loaded initialWorld 0 = 0%nat)
    by reflexivity.
  split; [split; [exact Hl | exact (Hidle (loading s) (term s) s (or_introl Hl))] |].
  split.
  { split; [exact H0 |]. split; [reflexivity |]. split; [reflexivity |].
    destruct (Hreq loaded false "" H0 eq_refl eq_refl eq_refl eq_refl) as [Hbody Hone].
    split; [exact Hbody | exact (Hone eq_refl eq_refl)]. }
  split.
  { split; [exact Hm |]. destruct (Hload s [] Hm) as (Hp & Hpg & Hn & _).
    split; [exact Hp |]. split; [exact Hpg | exact Hn]. }
  split; [exact Hm |].
  destruct (Hend w later Hm) as [Hcalls Hbody].
  split; [exact Hcalls | exact (Hbody false "")].
Defined.

Lemma delayed_search_timer_witness :
  "al" ≠ ""
  ∧ timers (onSearch testGeneral "al"
              (run testGeneral testProps
                 [Mount; FetchMore; ProfilesLoaded [albert]; SearchTextChanged "a"]
                 initialWorld).1)
    = [{| handle := 2%positive; delay := 500; searchText := "al" |}].
Proof.
  assert (H : "al" ≠ "") by done.
  split; [exact H |].
  destruct (delayed_search_timer testGeneral testProps) as (Hset & _ & _).
  exact (Hset [Mount; FetchMore; ProfilesLoaded [albert]; SearchTextChanged "a"] "al" H).
Defined.

Lemma displayed_list_witness :
  let s := screen (run testGeneral testProps
                     [SearchTextChanged "al"; TimerFired 1%positive;
                      SearchResolved (Some [albert; alice; ball])] browsing).1 in
  (term s = "al" ∧ searchResults s = [albert; alice; ball] ∧ selectedIds s = ∅)
  ∧ (usernameStartsWith "al" albert = true ∧ usernameStartsWith "al" alice = true
     ∧ usernameStartsWith "al" ball = false)
  ∧ data testProps usernameStartsWith s = [albert; alice]
  ∧ username <$> data testProps usernameStartsWith s = ["albert"; "alice"].
Proof.
  intros s.
  split; [by repeat split |]. split; [by repeat split |].
  destruct (displayed_list testProps usernameStartsWith) as [_ Hex].
  exact (Hex s albert alice ball eq_refl eq_refl eq_refl eq_refl eq_refl eq_refl
           eq_refl eq_refl eq_refl).
Defined.

Lemma profiles_response_after_unmount_witness :
  let s := screen (run testGeneral testProps [FetchMore; Unmount] browsing).1 in
  mounted s = false ∧ loadedProfiles [albert] s = s.
Proof.
  intros s. assert (H : mounted s = false) by reflexivity.
  split; [exact H | exact (profiles_response_after_unmount [albert] s H)].
Defined.

(** * More on the runs of the screen *)

Section Runs.
Context (G : Constants) (props : Props).
Implicit Types (s : State) (w : World) (e : Event) (events : list Event).

(** Induction along a run, for a property of the world that the events
    allowed by [ok] keep, and a property of the calls they make. *)
Lemma run_ind (P : World → Prop) (Q : Call → Prop) (ok : Event → bool) :
  (∀ w e, ok e = true → P w →
          P (dispatch G props w e).1 ∧ Forall Q (dispatch G props w e).2) →
  ∀ events w, forallb ok events = true → P w →
              P (run G props events w).1 ∧ Forall Q (run G props events w).2.
Proof.
  intros Hstep events. induction events as [|e events IH]; intros w Hok Hw; simpl.
  - by split.
  - simpl in Hok. apply andb_true_iff in Hok as [He Hok].
    destruct (Hstep w e He Hw) as [Hw1 Hc1].
    destruct (dispatch G props w e) as [w1 calls1]. simpl in *.
    destruct (IH w1 Hok Hw1) as [Hw2 Hc2].
    destruct (run G props events w1) as [w2 calls2]. simpl in *.
    split; [done |]. by apply Forall_app.
Qed.

Lemma run_app events1 events2 w :
  run G props (events1 ++ events2) w
  = ((run G props events2 (run G props events1 w).1).1,
     (run G props events1 w).2 ++ (run G props events2 (run G props events1 w).1).2).
Proof.
  revert w. induction events1 as [|e events1 IH]; intros w; simpl.
  - by destruct (run G props events2 w).
  - destruct (dispatch G props w e) as [w1 calls1]. rewrite IH.
    destruct (run G props events1 w1) as [w2 calls2]. simpl.
    by rewrite app_assoc.
Qed.

Lemma run_one e w : run G props [e] w = dispatch G props w e.
Proof. simpl. destruct (dispatch G props w e). by rewrite app_nil_r. Qed.

Lemma screen_dispatch w e :
  screen (dispatch G props w e).1
  = rendered G (screen w) (screen (handler G props e w).1).
Proof. unfold dispatch. by destruct (handler G props e w). Qed.

Lemma timers_dispatch w e :
  timers (dispatch G props w e).1 = timers (handler G props e w).1.
Proof. unfold dispatch. by destruct (handler G props e w). Qed.

Lemma calls_dispatch w e : (dispatch G props w e).2 = (handler G props e w).2.
Proof. unfold dispatch. by destruct (handler G props e w). Qed.

(** ** The toast *)

Lemma atLimit_setShowToast b s : atLimit G (setShowToast b s) = atLimit G s.
Proof. done. Qed.

Lemma showToast_handler w e :
  isToastChanged e = false →
  showToast (screen (handler G props e w).1)
  = atLimit G (screen (handler G props e w).1)
  ∨ showToast (screen (handler G props e w).1) = showToast (screen w).
Proof.
  intros He.
  destruct e as [ | | | users | i | user | text | | | t | found | sel | err | shown];
    try done; cbn [handler fst].
  6: { cbn [onScreen screen].
       destruct (selectedIds (screen w) !! id user) as [p|] eqn:Hp.
       - right. unfold handleSelectProfile. simpl.
         by rewrite (selectUpdater_selected _ _ _ _ p).
       - destruct (le_lt_dec (MAX_SELECTED_USERS G) (selectedCount (screen w))) as [Hn|Hn].
         + left. unfold handleSelectProfile. simpl.
           rewrite selectUpdater_rejected by done. simpl.
           unfold atLimit, selectedCount. simpl. symmetry. by apply leb_correct.
         + right. unfold handleSelectProfile. simpl.
           by rewrite selectUpdater_added. }
  1: by left.
  all: right.
  all: unfold onState, getProfiles, loadedProfiles, search, searchUsers, onSearch, fire,
    startAddPeople, startAddPeople_resolved, addPeopleToChannel_resolved,
    setTimeout, clearTimeout; simpl.
  all: repeat case_match; simplify_eq/=; done.
Qed.

Lemma showToast_dispatch w e :
  isToastChanged e = false →
  showToast (screen w) = atLimit G (screen w) →
  showToast (screen (dispatch G props w e).1)
  = atLimit G (screen (dispatch G props w e).1).
Proof.
  intros He Hw. rewrite screen_dispatch.
  pose proof (showToast_handler w e He) as H.
  set (s' := screen (handler G props e w).1) in *.
  unfold rendered. destruct (Bool.eqb _ _) eqn:Heq; [| done].
  apply Bool.eqb_prop in Heq.
  destruct H as [H | H]; congruence.
Qed.

(** As long as [SelectedUsers] does not call [setShowToast] itself, the
    toast is shown exactly when the selection is at the limit: from the
    mount on, whatever is pressed, removed, typed, fetched or submitted. *)
Theorem toast_shown_at_limit events :
  forallb (λ e, negb (isToastChanged e)) events = true →
  showToast (screen (run G props (Mount :: events) initialWorld).1)
  = atLimit G (screen (run G props (Mount :: events) initialWorld).1).
Proof.
  intros Hok.
  change (Mount :: events) with ([Mount] ++ events). rewrite run_app. simpl.
  refine (proj1 (run_ind (λ w, showToast (screen w) = atLimit G (screen w)) (λ _, True)
                   (λ e, negb (isToastChanged e)) _ events _ Hok _)).
  - intros w e He Hw. apply negb_true_iff in He. split.
    + by apply showToast_dispatch.
    + by apply Forall_forall.
  - cbn [onScreen screen]. unfold rendered.
    match goal with |- context [Bool.eqb ?a ?b] => destruct (Bool.eqb a b) end;
      reflexivity.
Qed.

(** ** One submission at a time *)

Lemma filter_none (f : Call → bool) (calls : list Call) :
  Forall (λ c, f c = false) calls → List.filter f calls = [].
Proof.
  induction 1 as [|c calls Hc _ IH]; simpl; [done |]. by rewrite Hc.
Qed.

Lemma submitting_dispatch w e :
  isAddMembersResolved e = false →
  startingAddPeople (screen w) = true →
  startingAddPeople (screen (dispatch G props w e).1) = true
  ∧ Forall (λ c, isAddMembers c = false) (dispatch G props w e).2.
Proof.
  intros He Hw. rewrite screen_dispatch, calls_dispatch.
  assert (Hr : ∀ prev s, startingAddPeople (rendered G prev s) = startingAddPeople s).
  { intros prev s. unfold rendered. by destruct (Bool.eqb _ _). }
  rewrite Hr.
  destruct e as [ | | | users | i | user | text | | | t | found | sel | err | shown];
    try done; cbn [handler fst snd].
  all: unfold onState, getProfiles, loadedProfiles, handleSelectProfile, search,
    searchUsers, onSearch, fire, startAddPeople, setTimeout, clearTimeout; simpl.
  all: try rewrite Hw.
  all: repeat case_match; simplify_eq/=; split; by repeat constructor.
Qed.

(** From the press on the button that sends the request until the
    response, whatever else happens (presses on the button included), no
    second request to [addMembersToChannel] is made. *)
Theorem one_submission_at_a_time selectedId w events :
  startingAddPeople (screen w) = false →
  idsToUse selectedId (screen w) ≠ [] →
  forallb (λ e, negb (isAddMembersResolved e)) events = true →
  List.filter isAddMembers (run G props (AddPressed selectedId :: events) w).2
  = [addMembersToChannel (serverUrl props) (currentChannelId props)
       (idsToUse selectedId (screen w)) "" false]
  ∧ startingAddPeople (screen (run G props (AddPressed selectedId :: events) w).1) = true.
Proof.
  intros Hflag Hids Hok.
  change (AddPressed selectedId :: events) with ([AddPressed selectedId] ++ events).
  rewrite run_app. cbn [run fst snd].
  rewrite (dispatch_AddPressed G props selectedId w Hflag Hids). cbn [fst snd app].
  destruct (run_ind (λ w, startingAddPeople (screen w) = true)
              (λ c, isAddMembers c = false) (λ e, negb (isAddMembersResolved e)))
    with (events := events) (w := onScreen (setStartingAddPeople true) w)
    as [Hw Hcalls]; [| done | done |].
  - intros w' e He Hw'. apply negb_true_iff in He. by apply submitting_dispatch.
  - split; [| done]. simpl. by rewrite (filter_none _ _ Hcalls).
Qed.

(** ** What is submitted *)

(** Pressed with no argument, the button requests the membership of the
    selected users: each selected id once, and no other. *)
Theorem submitted_ids s :
  startingAddPeople s = false →
  selectedIds s ≠ ∅ →
  ∃ ids,
    (startAddPeople props None s).2
    = [addMembersToChannel (serverUrl props) (currentChannelId props) ids "" false]
    ∧ NoDup ids
    ∧ (∀ i, i ∈ ids ↔ is_Some (selectedIds s !! i))
    ∧ length ids = selectedCount s.
Proof.
  intros Hflag Hsel. exists (Object_keys (selectedIds s)).
  assert (Hne : Object_keys (selectedIds s) ≠ []) by by rewrite Object_keys_nil.
  split; [| split; [| split]].
  - unfold startAddPeople. rewrite Hflag. cbn [idsToUse].
    by rewrite (length_eqb_0 _ Hne).
  - apply NoDup_fst_map_to_list.
  - intros i. unfold Object_keys. rewrite list_elem_of_fmap. split.
    + intros [[j p] [-> Hjp]]. apply elem_of_map_to_list in Hjp. by exists p.
    + intros [p Hp]. exists (i, p). split; [done |]. by apply elem_of_map_to_list.
  - unfold Object_keys, selectedCount. by rewrite length_fmap, length_map_to_list.
Qed.

Lemma requests_dispatch w e :
  isAddPressedWith e = false →
  (selectedCount (screen w) ≤ MAX_SELECTED_USERS G)%nat →
  Forall (λ c, (length (idsOf c) ≤ MAX_SELECTED_USERS G)%nat) (dispatch G props w e).2.
Proof.
  intros He Hw. rewrite calls_dispatch.
  destruct e as [ | | | users | i | user | text | | | t | found | [sel|] | err | shown];
    try done; cbn [handler fst snd].
  all: unfold onState, getProfiles, search, searchUsers, fire, startAddPeople,
    startAddPeople_resolved, addPeopleToChannel_resolved, addPeopleToChannel, close;
    simpl.
  all: repeat case_match; simplify_eq/=; repeat constructor; simpl; try lia.
  unfold Object_keys. rewrite length_fmap, length_map_to_list. exact Hw.
Qed.

(** The limit on the selection is a limit on the request: as long as the
    button is pressed with no argument of its own, no call to
    [addMembersToChannel] carries more than [MAX_SELECTED_USERS] ids. *)
Theorem requests_within_limit events :
  forallb (λ e, negb (isAddPressedWith e)) events = true →
  Forall (λ c, (length (idsOf c) ≤ MAX_SELECTED_USERS G)%nat)
    (run G props events initialWorld).2.
Proof.
  intros Hok.
  refine (proj2 (run_ind (λ w, (selectedCount (screen w) ≤ MAX_SELECTED_USERS G)%nat)
                   (λ c, (length (idsOf c) ≤ MAX_SELECTED_USERS G)%nat)
                   (λ e, negb (isAddPressedWith e)) _ events _ Hok _)).
  - intros w e He Hw. apply negb_true_iff in He. split.
    + by apply selectedCount_dispatch.
    + by apply requests_dispatch.
  - unfold selectedCount. simpl. rewrite map_size_empty. lia.
Qed.

(** ** The pages *)

Lemma pages_rendered prev s :
  profiles (rendered G prev s) = profiles s
  ∧ page (rendered G prev s) = page s
  ∧ mounted (rendered G prev s) = mounted s
  ∧ next (rendered G prev s) = next s.
Proof. unfold rendered. by destruct (Bool.eqb _ _). Qed.

Lemma pages_dispatch w e events :
  profiles (screen (dispatch G props w e).1)
  = profiles (screen w) ++ concat (delivered (mounted (screen w)) [e])
  ∧ page (screen (dispatch G props w e).1)
    = (page (screen w) + Z.of_nat (length (delivered (mounted (screen w)) [e])))%Z
  ∧ delivered (mounted (screen w)) (e :: events)
    = delivered (mounted (screen w)) [e]
      ++ delivered (mounted (screen (dispatch G props w e).1)) events.
Proof.
  rewrite screen_dispatch.
  destruct (pages_rendered (screen w) (screen (handler G props e w).1))
    as (-> & -> & -> & _).
  destruct e as [ | | | users | i | user | text | | | t | found | sel | err | shown];
    cbn [handler fst delivered].
  4: { cbn [onScreen screen]. unfold loadedProfiles.
       destruct (mounted (screen w)) eqn:Hm; simpl.
       - destruct users; simpl; rewrite ?Hm, ?app_nil_r; repeat split; (done || lia).
       - rewrite ?Hm, ?app_nil_r. repeat split; (done || lia). }
  all: unfold onState, getProfiles, handleSelectProfile, search, searchUsers, onSearch,
    fire, startAddPeople, startAddPeople_resolved, addPeopleToChannel_resolved,
    setTimeout, clearTimeout; simpl.
  all: repeat case_match; simplify_eq/=.
  all: rewrite ?app_nil_r; repeat split; (done || lia).
Qed.

Lemma pages_run events w :
  profiles (screen (run G props events w).1)
  = profiles (screen w) ++ concat (delivered (mounted (screen w)) events)
  ∧ page (screen (run G props events w).1)
    = (page (screen w) + Z.of_nat (length (delivered (mounted (screen w)) events)))%Z.
Proof.
  revert w. induction events as [|e events IH]; intros w.
  - simpl. rewrite app_nil_r. split; [done | lia].
  - destruct (pages_dispatch w e events) as (Hp & Hpg & ->).
    cbn [run].
    destruct (dispatch G props w e) as [w1 calls1]. cbn [fst] in *.
    destruct (IH w1) as [Hp' Hpg'].
    destruct (run G props events w1) as [w2 calls2]. cbn [fst] in *.
    rewrite Hp', Hpg', Hp, Hpg, concat_app, length_app. split.
    + by rewrite app_assoc.
    + lia.
Qed.

(** The list of profiles is the pages that reached the mounted component,
    one after the other in the order they came, and [page] counts them.
    So the search bar, rendered once there are profiles, is rendered only
    after a page has come. *)
Theorem pages_delivered events :
  profiles (screen (run G props events initialWorld).1)
  = concat (delivered false events)
  ∧ page (screen (run G props events initialWorld).1)
    = (Z.of_nat (length (delivered false events)) - 1)%Z
  ∧ (hasProfiles (screen (run G props events initialWorld).1) = true →
     (0 ≤ page (screen (run G props events initialWorld).1))%Z).
Proof.
  destruct (pages_run events initialWorld) as [Hp Hpg]. simpl in Hp, Hpg.
  split; [done |]. split; [lia |].
  unfold hasProfiles. rewrite Hp, Hpg.
  destruct (delivered false events); simpl; [done | lia].
Qed.

(** ** After the unmount *)

Lemma unmounted_dispatch (p0 : list UserProfile) (page0 : Z) (next0 : bool) w e :
  isMount e = false →
  mounted (screen w) = false ∧ profiles (screen w) = p0
    ∧ page (screen w) = page0 ∧ next (screen w) = next0 →
  (mounted (screen (dispatch G props w e).1) = false
   ∧ profiles (screen (dispatch G props w e).1) = p0
   ∧ page (screen (dispatch G props w e).1) = page0
   ∧ next (screen (dispatch G props w e).1) = next0)
  ∧ Forall (λ c, isFetch c = false) (dispatch G props w e).2.
Proof.
  intros He (Hm & Hp & Hpg & Hn). rewrite screen_dispatch, calls_dispatch.
  destruct (pages_rendered (screen w) (screen (handler G props e w).1))
    as (-> & -> & -> & ->).
  subst p0 page0 next0.
  destruct e as [ | | | users | i | user | text | | | t | found | sel | err | shown];
    try done; cbn [handler fst snd].
  all: unfold onState, getProfiles, loadedProfiles, handleSelectProfile, search,
    searchUsers, onSearch, fire, startAddPeople, startAddPeople_resolved,
    addPeopleToChannel_resolved, addPeopleToChannel, close, setTimeout, clearTimeout;
    simpl.
  all: rewrite ?Hm, ?andb_false_r; simpl.
  all: repeat case_match; simplify_eq/=.
  all: split; [done | by repeat constructor].
Qed.

(** Once the component is unmounted, and as long as it is not mounted
    again, no page is requested, and [profiles], [page] and [next] stay as
    they are, whatever comes in. *)
Theorem nothing_fetched_after_unmount w events :
  mounted (screen w) = false →
  forallb (λ e, negb (isMount e)) events = true →
  Forall (λ c, isFetch c = false) (run G props events w).2
  ∧ profiles (screen (run G props events w).1) = profiles (screen w)
  ∧ page (screen (run G props events w).1) = page (screen w)
  ∧ next (screen (run G props events w).1) = next (screen w).
Proof.
  intros Hm Hok.
  destruct (run_ind
              (λ w', mounted (screen w') = false ∧ profiles (screen w') = profiles (screen w)
                     ∧ page (screen w') = page (screen w) ∧ next (screen w') = next (screen w))
              (λ c, isFetch c = false) (λ e, negb (isMount e)))
    with (events := events) (w := w) as [(_ & Hp & Hpg & Hn) Hcalls]; [| done | done |].
  - intros w' e He Hw'. apply negb_true_iff in He. by apply unmounted_dispatch.
  - done.
Qed.

(** ** The timer, once set *)

Lemma timers_kept_dispatch w e :
  touchesTimers e = false →
  timers (dispatch G props w e).1 = timers w
  ∧ fresh (dispatch G props w e).1 = fresh w.
Proof.
  intros He. unfold dispatch.
  destruct e as [ | | | users | i | user | text | | | t | found | sel | err | shown];
    try done; cbn [handler].
  all: try (simpl in He; unfold onSearch; rewrite He).
  all: unfold onState; repeat case_match; simplify_eq/=; done.
Qed.

Lemma timers_kept_run events w :
  forallb (λ e, negb (touchesTimers e)) events = true →
  timers (run G props events w).1 = timers w
  ∧ fresh (run G props events w).1 = fresh w.
Proof.
  intros Hok.
  refine (proj1 (run_ind (λ w', timers w' = timers w ∧ fresh w' = fresh w) (λ _, True)
                   (λ e, negb (touchesTimers e)) _ events w Hok _)); [| done].
  intros w' e He [Ht Hf]. apply negb_true_iff in He.
  destruct (timers_kept_dispatch w' e He) as [Ht' Hf'].
  split; [by rewrite Ht', Hf', Ht, Hf | by apply Forall_forall].
Qed.

Lemma fire_pending text ms t w :
  timers w = [{| handle := t; delay := ms; searchText := text |}] →
  (fire props t w).2
  = [searchProfiles (serverUrl props) (toLowerCase text) (currentTeamId props)
       (currentChannelId props) true]
  ∧ timers (fire props t w).1 = []
  ∧ loading (screen (fire props t w).1) = true
  ∧ term (screen (fire props t w).1) = term (screen w).
Proof.
  intros Hw. unfold fire. rewrite Hw. simpl.
  rewrite bool_decide_eq_true_2 by done. simpl.
  rewrite Hw. split; [done |]. split; [| done].
  apply (filter_other_handle {| handle := t; delay := ms; searchText := text |}).
Qed.

(** A timer that [onSearch] has set goes off, whatever happens in between
    short of a new text: cancelling the search, emptying the box, selecting
    or removing a user, submitting the search and unmounting all leave it
    pending.  When it goes off the search for the text typed is requested
    and [loading] is set, whatever the term is by then. *)
Theorem delayed_search_is_made events text later :
  text ≠ "" →
  forallb (λ e, negb (touchesTimers e)) later = true →
  ∃ calls,
    (run G props
       (SearchTextChanged text :: later
        ++ [TimerFired (fresh (run G props events initialWorld).1)])
       (run G props events initialWorld).1).2
    = calls ++ [searchProfiles (serverUrl props) (toLowerCase text)
                  (currentTeamId props) (currentChannelId props) true]
    ∧ loading (screen (run G props
                         (SearchTextChanged text :: later
                          ++ [TimerFired (fresh (run G props events initialWorld).1)])
                         (run G props events initialWorld).1).1) = true.
Proof.
  intros Htext Hok.
  set (w := (run G props events initialWorld).1).
  change (SearchTextChanged text :: later ++ [TimerFired (fresh w)])
    with ([SearchTextChanged text] ++ later ++ [TimerFired (fresh w)]).
  rewrite run_app, run_app.
  set (w1 := (run G props [SearchTextChanged text] w).1).
  set (w2 := (run G props later w1).1).
  assert (H1 : timers w1
               = [{| handle := fresh w; delay := SEARCH_TIMEOUT_MILLISECONDS G;
                     searchText := text |}]).
  { unfold w1. cbn [run]. destruct (dispatch G props w (SearchTextChanged text))
      as [w' calls'] eqn:Hd. cbn [fst].
    assert (w' = (dispatch G props w (SearchTextChanged text)).1) as -> by by rewrite Hd.
    rewrite timers_dispatch. cbn [handler fst].
    by destruct (onSearch_schedules G text w (timersTracked_reachable G props events) Htext). }
  assert (H2 : timers w2 = timers w1).
  { unfold w2. by destruct (timers_kept_run later w1 Hok). }
  rewrite H1 in H2.
  destruct (fire_pending text (SEARCH_TIMEOUT_MILLISECONDS G) (fresh w) w2 H2)
    as (Hcalls & _ & Hload & _).
  eexists. cbn [fst snd]. split.
  - rewrite app_assoc. f_equal.
    cbn [run]. rewrite <- Hcalls.
    destruct (dispatch G props w2 (TimerFired (fresh w))) as [w3 calls3] eqn:Hd.
    cbn [snd]. rewrite app_nil_r.
    assert (calls3 = (dispatch G props w2 (TimerFired (fresh w))).2) as -> by by rewrite Hd.
    by rewrite calls_dispatch.
  - cbn [run].
    destruct (dispatch G props w2 (TimerFired (fresh w))) as [w3 calls3] eqn:Hd.
    cbn [fst].
    assert (w3 = (dispatch G props w2 (TimerFired (fresh w))).1) as -> by by rewrite Hd.
    rewrite screen_dispatch. cbn [handler].
    unfold rendered. by destruct (Bool.eqb _ _).
Qed.

End Runs.

(** ** Selecting, removing, fetching *)

Section Composition.
Context (G : Constants) (props : Props).
Implicit Types (s : State) (w : World) (user : UserProfile).

Lemma after_select prev s user :
  loading (rendered G prev (handleSelectProfile G user s)) = false
  ∧ term (rendered G prev (handleSelectProfile G user s)) = ""
  ∧ next (rendered G prev (handleSelectProfile G user s)) = next s
  ∧ mounted (rendered G prev (handleSelectProfile G user s)) = mounted s
  ∧ page (rendered G prev (handleSelectProfile G user s)) = page s.
Proof.
  unfold rendered, handleSelectProfile. simpl.
  destruct (selectUpdater _ _ _ _) as [m [|]]; destruct (Bool.eqb _ _); done.
Qed.

(** A press on a row while a page is being fetched lets the same page be
    requested a second time: the press clears [loading], which is what
    [getProfiles] goes by. *)
Theorem page_requested_again w user :
  loading (screen w) = false → term (screen w) = "" →
  next (screen w) = true → mounted (screen w) = true →
  (run G props [FetchMore; SelectProfile user; FetchMore] w).2
  = [fetchProfilesNotInChannel (serverUrl props) (currentTeamId props)
       (currentChannelId props) (groupConstrained props)
       (page (screen w) + 1)%Z (PROFILE_CHUNK_SIZE G);
     fetchProfilesNotInChannel (serverUrl props) (currentTeamId props)
       (currentChannelId props) (groupConstrained props)
       (page (screen w) + 1)%Z (PROFILE_CHUNK_SIZE G)].
Proof.
  intros Hl Ht Hn Hm.
  change [FetchMore; SelectProfile user; FetchMore]
    with ([FetchMore] ++ [SelectProfile user] ++ [FetchMore]).
  rewrite !run_app, !run_one. cbn [fst snd].
  set (w1 := (dispatch G props w FetchMore).1).
  set (w2 := (dispatch G props w1 (SelectProfile user)).1).
  assert (H1 : (dispatch G props w FetchMore).2
               = [fetchProfilesNotInChannel (serverUrl props) (currentTeamId props)
                    (currentChannelId props) (groupConstrained props)
                    (page (screen w) + 1)%Z (PROFILE_CHUNK_SIZE G)]
               ∧ next (screen w1) = true ∧ mounted (screen w1) = true
               ∧ page (screen w1) = page (screen w)).
  { unfold w1. rewrite calls_dispatch, screen_dispatch. cbn [handler].
    unfold onState. rewrite (getProfiles_requests G props (screen w) Hl Ht Hn Hm).
    cbn [fst snd onScreen screen].
    destruct (pages_rendered G (screen w) (setLoading true (screen w)))
      as (_ & -> & -> & ->). done. }
  destruct H1 as (-> & Hn1 & Hm1 & Hp1).
  assert (H2 : (dispatch G props w1 (SelectProfile user)).2 = []
               ∧ loading (screen w2) = false ∧ term (screen w2) = ""
               ∧ next (screen w2) = true ∧ mounted (screen w2) = true
               ∧ page (screen w2) = page (screen w)).
  { unfold w2. rewrite calls_dispatch, screen_dispatch. cbn [handler fst snd onScreen screen].
    destruct (after_select (screen w1) (screen w1) user) as (-> & -> & -> & -> & ->).
    done. }
  destruct H2 as (-> & Hl2 & Ht2 & Hn2 & Hm2 & Hp2).
  rewrite calls_dispatch. cbn [handler]. unfold onState.
  rewrite (getProfiles_requests G props (screen w2) Hl2 Ht2 Hn2 Hm2), Hp2. done.
Qed.

(** Removing from the tray the user a press has just added gives back the
    selection there was, and what is removed is not selected afterwards. *)
Theorem remove_after_select s user :
  selectedIds s !! id user = None →
  (selectedCount s < MAX_SELECTED_USERS G)%nat →
  selectedIds (toggle G s user) !! id user = Some user
  ∧ selectedIds (handleRemoveProfile (id user) (toggle G s user)) = selectedIds s.
Proof.
  intros Hp Hn. unfold handleRemoveProfile, removeProfileFromList. simpl.
  rewrite selectedIds_toggle, selectUpdater_added by done. simpl.
  split; [apply lookup_insert_eq |].
  rewrite delete_insert_eq. by apply delete_id.
Qed.

(** A removal makes room: after a selected user is removed from a
    selection within the limit, a press on a user who is not selected is
    not turned down. *)
Theorem select_after_remove s i user :
  (selectedCount s ≤ MAX_SELECTED_USERS G)%nat →
  is_Some (selectedIds s !! i) →
  selectedIds s !! id user = None →
  selectedIds (toggle G (rendered G s (handleRemoveProfile i s)) user)
  = <[id user := user]> (delete i (selectedIds s)).
Proof.
  intros Hs Hi Hp.
  rewrite selectedIds_toggle. unfold selectedCount.
  rewrite selectedIds_rendered. unfold handleRemoveProfile, removeProfileFromList. simpl.
  rewrite selectUpdater_added; [done | |].
  - rewrite lookup_delete_ne; [done |]. intros ->. rewrite Hp in Hi. by destruct Hi.
  - rewrite map_size_delete_Some by done.
    assert (size (selectedIds s) ≠ 0%nat).
    { intros H0. apply map_size_empty_inv in H0. rewrite H0, lookup_empty in Hi.
      by destruct Hi. }
    unfold selectedCount in Hs. lia.
Qed.

End Composition.

(** ** More on the displayed list *)

Section DisplayedListMore.
Context (props : Props) (matches : string → UserProfile → bool).
Implicit Types (s : State) (p : UserProfile) (l : list UserProfile).

Lemma filter_split (f g : UserProfile → bool) l :
  (∀ p, f p && g p = false) →
  List.filter f l ++ List.filter g l ≡ₚ List.filter (λ p, f p || g p) l.
Proof.
  intros Hfg. induction l as [|p l IH]; simpl; [done |].
  specialize (Hfg p). destruct (f p), (g p); simpl in *; try done.
  - by constructor.
  - rewrite <- Permutation_middle. by constructor.
Qed.

Lemma promoted_or_remaining n term p :
  matches term p && promoted props n term p || matches term p && remaining props n term p
  = matches term p
    && negb ((0 <? n)%nat && String.eqb (id p) (currentUserId props)).
Proof.
  unfold promoted, remaining.
  destruct (matches term p), ((0 <? n)%nat && String.eqb (id p) (currentUserId props)),
    (String.eqb (username p) term || String.prefix term (username p)); done.
Qed.

Lemma promoted_and_remaining n term p :
  (matches term p && promoted props n term p)
  && (matches term p && remaining props n term p) = false.
Proof.
  unfold promoted, remaining.
  destruct (matches term p), ((0 <? n)%nat && String.eqb (id p) (currentUserId props)),
    (String.eqb (username p) term || String.prefix term (username p)); done.
Qed.

(** With a search term, the list displayed is a rearrangement of the
    results the helper keeps, less the current user once somebody is
    selected: no result is shown twice or lost, and the current user is
    not offered while there is a selection. *)
Theorem displayed_results s :
  isSearch s = true →
  data props matches s
  ≡ₚ List.filter
       (λ p, matches (term s) p
             && negb ((0 <? selectedCount s)%nat
                      && String.eqb (id p) (currentUserId props)))
       (searchResults s)
  ∧ (∀ p, p ∈ data props matches s →
          (0 < selectedCount s)%nat → id p ≠ currentUserId props).
Proof.
  intros Hs.
  assert (Hperm : data props matches s
                  ≡ₚ List.filter
                       (λ p, matches (term s) p
                             && negb ((0 <? selectedCount s)%nat
                                      && String.eqb (id p) (currentUserId props)))
                       (searchResults s)).
  { rewrite (data_search props matches s Hs).
    rewrite filter_split by apply promoted_and_remaining.
    erewrite List.filter_ext; [done |]. intros p. apply promoted_or_remaining. }
  split; [done |].
  intros p Hp Hn. rewrite Hperm in Hp.
  apply list_elem_of_In, List.filter_In in Hp as [_ Hp].
  apply andb_true_iff in Hp as [_ Hp]. apply negb_true_iff in Hp.
  apply Nat.ltb_lt in Hn. rewrite Hn in Hp. simpl in Hp.
  by apply String.eqb_neq.
Qed.

Lemma toLowerCase_cons c t :
  toLowerCase (String c t) = String c t → lowerAscii c = c ∧ toLowerCase t = t.
Proof. simpl. intros H. by inversion H as [[H1 H2]]; rewrite H1, H2. Qed.

Lemma prefix_toLowerCase t u :
  String.prefix t u = true → toLowerCase u = u → toLowerCase t = t.
Proof.
  revert u. induction t as [|a t IH]; intros u Hpre Hu; [done |].
  destruct u as [|b u]; simpl in Hpre; [done |].
  destruct (Ascii.ascii_dec a b) as [-> | _]; [| done].
  apply toLowerCase_cons in Hu as [Hb Hu].
  simpl. by rewrite Hb, (IH u Hpre Hu).
Qed.

Lemma promoted_lower_case n term p :
  toLowerCase (username p) = username p →
  promoted props n term p = true → toLowerCase term = term.
Proof.
  intros Hu Hp. unfold promoted in Hp.
  apply andb_true_iff in Hp as [_ Hp]. apply orb_true_iff in Hp as [Hp | Hp].
  - apply String.eqb_eq in Hp. by rewrite <- Hp.
  - by apply (prefix_toLowerCase term (username p)).
Qed.

(** The request is made for the term in lower case, the list is sorted by
    the term as typed: a term with an upper-case letter moves no user name
    in lower case to the front, and the list is the kept results in the
    order they came. *)
Theorem upper_case_term s :
  isSearch s = true →
  toLowerCase (term s) ≠ term s →
  (∀ p, p ∈ searchResults s → toLowerCase (username p) = username p) →
  data props matches s
  = List.filter
      (λ p, matches (term s) p
            && negb ((0 <? selectedCount s)%nat
                     && String.eqb (id p) (currentUserId props)))
      (searchResults s).
Proof.
  intros Hs Hterm Hlow.
  assert (Hnot : ∀ p, In p (searchResults s) →
                      promoted props (selectedCount s) (term s) p = false).
  { intros p Hp. apply list_elem_of_In in Hp.
    destruct (promoted props (selectedCount s) (term s) p) eqn:Hpr; [| done].
    destruct Hterm. by apply (promoted_lower_case (selectedCount s) (term s) p (Hlow p Hp)). }
  rewrite (data_search props matches s Hs).
  rewrite (List.filter_ext_in _ (λ _, false)).
  - assert (Hnil : ∀ l, List.filter (λ _ : UserProfile, false) l = []).
    { intros l. induction l; done. }
    rewrite Hnil. simpl. apply List.filter_ext_in. intros p Hp.
    rewrite <- promoted_or_remaining. by rewrite (Hnot p Hp), andb_false_r.
  - intros p Hp. by rewrite (Hnot p Hp), andb_false_r.
Qed.

End DisplayedListMore.

(** ** The search submitted *)

Section SearchSubmitted.
Context (G : Constants) (props : Props).
Implicit Types (s : State) (w : World).

Lemma term_rendered prev s : term (rendered G prev s) = term s.
Proof. unfold rendered. by destruct (Bool.eqb _ _). Qed.

Lemma term_onSearch text w :
  text ≠ "" → term (screen (onSearch G text w)) = text.
Proof.
  intros Ht. unfold onSearch. rewrite (proj2 (truthy_true text) Ht). simpl.
  by destruct (searchTimeoutId (screen w)).
Qed.

(** Submitting the search box sends the request for the term at once and
    leaves the timer of the last keystroke pending: when the timer goes
    off, the same search is requested a second time. *)
Theorem search_requested_twice events text :
  text ≠ "" →
  (run G props
     [SearchTextChanged text; SearchSubmitted;
      TimerFired (fresh (run G props events initialWorld).1)]
     (run G props events initialWorld).1).2
  = [searchProfiles (serverUrl props) (toLowerCase text) (currentTeamId props)
       (currentChannelId props) true;
     searchProfiles (serverUrl props) (toLowerCase text) (currentTeamId props)
       (currentChannelId props) true].
Proof.
  intros Ht. set (w := (run G props events initialWorld).1).
  change [SearchTextChanged text; SearchSubmitted; TimerFired (fresh w)]
    with ([SearchTextChanged text] ++ [SearchSubmitted] ++ [TimerFired (fresh w)]).
  rewrite !(run_app G props), !(run_one G props). cbn [fst snd].
  set (w1 := (dispatch G props w (SearchTextChanged text)).1).
  set (w2 := (dispatch G props w1 SearchSubmitted).1).
  assert (H1 : (dispatch G props w (SearchTextChanged text)).2 = []
               ∧ term (screen w1) = text
               ∧ timers w1 = [{| handle := fresh w;
                                 delay := SEARCH_TIMEOUT_MILLISECONDS G;
                                 searchText := text |}]).
  { unfold w1. rewrite calls_dispatch, screen_dispatch, timers_dispatch, term_rendered.
    cbn [handler fst snd]. split; [done |]. split; [by apply term_onSearch |].
    by destruct (onSearch_schedules G text w (timersTracked_reachable G props events) Ht). }
  destruct H1 as (-> & Hterm & Htimers).
  assert (H2 : (dispatch G props w1 SearchSubmitted).2
               = [searchProfiles (serverUrl props) (toLowerCase text)
                    (currentTeamId props) (currentChannelId props) true]
               ∧ timers w2 = timers w1).
  { unfold w2. rewrite calls_dispatch. split.
    - cbn [handler]. unfold onState, search, searchUsers. by rewrite Hterm.
    - by destruct (timers_kept_dispatch G props w1 SearchSubmitted eq_refl). }
  destruct H2 as (-> & Htimers2). rewrite Htimers in Htimers2.
  rewrite calls_dispatch. cbn [handler].
  by destruct (fire_pending props text (SEARCH_TIMEOUT_MILLISECONDS G) (fresh w) w2 Htimers2)
    as (-> & _).
Qed.

End SearchSubmitted.

(** ** Instances *)

Lemma toast_shown_at_limit_witness :
  let events := [FetchMore; ProfilesLoaded [albert; alice; ball];
                 SelectProfile albert; SelectProfile alice; SelectProfile ball;
                 RemoveProfile "u1"] in
  forallb (λ e, negb (isToastChanged e)) events = true
  ∧ showToast (screen (run testGeneral testProps (Mount :: events) initialWorld).1)
    = atLimit testGeneral
        (screen (run testGeneral testProps (Mount :: events) initialWorld).1).
Proof.
  intros events.
  assert (H : forallb (λ e, negb (isToastChanged e)) events = true) by reflexivity.
  split; [exact H | exact (toast_shown_at_limit testGeneral testProps events H)].
Defined.

Lemma one_submission_at_a_time_witness :
  let w := (run testGeneral testProps [SelectProfile albert] browsing).1 in
  let events := [AddPressed None; SelectProfile alice; AddPressed None] in
  startingAddPeople (screen w) = false
  ∧ idsToUse None (screen w) = ["u1"]
  ∧ forallb (λ e, negb (isAddMembersResolved e)) events = true
  ∧ List.filter isAddMembers (run testGeneral testProps (AddPressed None :: events) w).2
    = [addMembersToChannel "https://chat.example.com" "channel1" ["u1"] "" false].
Proof.
  intros w events.
  assert (H1 : startingAddPeople (screen w) = false) by reflexivity.
  assert (H2 : idsToUse None (screen w) = ["u1"]) by reflexivity.
  assert (H3 : idsToUse None (screen w) ≠ []) by (rewrite H2; discriminate).
  assert (H4 : forallb (λ e, negb (isAddMembersResolved e)) events = true) by reflexivity.
  split; [exact H1 |]. split; [exact H2 |]. split; [exact H4 |].
  destruct (one_submission_at_a_time testGeneral testProps None w events H1 H3 H4)
    as [Hcalls _].
  rewrite H2 in Hcalls. exact Hcalls.
Defined.

Lemma submitted_ids_witness :
  let s := screen (run testGeneral testProps
                     [SelectProfile albert; SelectProfile alice] browsing).1 in
  startingAddPeople s = false
  ∧ selectedIds s !! "u1" = Some albert
  ∧ ∃ ids,
      (startAddPeople testProps None s).2
      = [addMembersToChannel "https://chat.example.com" "channel1" ids "" false]
      ∧ NoDup ids
      ∧ (∀ i, i ∈ ids ↔ is_Some (selectedIds s !! i))
      ∧ length ids = selectedCount s.
Proof.
  intros s.
  assert (H1 : startingAddPeople s = false) by reflexivity.
  assert (H2 : selectedIds s !! "u1" = Some albert) by reflexivity.
  assert (H3 : selectedIds s ≠ ∅).
  { intros H. rewrite H in H2. discriminate H2. }
  split; [exact H1 |]. split; [exact H2 |].
  exact (submitted_ids testProps s H1 H3).
Defined.

Lemma requests_within_limit_witness :
  let events := [Mount; FetchMore; ProfilesLoaded [albert; alice; ball];
                 SelectProfile albert; SelectProfile alice; SelectProfile ball;
                 AddPressed None] in
  forallb (λ e, negb (isAddPressedWith e)) events = true
  ∧ Forall (λ c, (length (idsOf c) ≤ MAX_SELECTED_USERS testGeneral)%nat)
      (run testGeneral testProps events initialWorld).2.
Proof.
  intros events.
  assert (H : forallb (λ e, negb (isAddPressedWith e)) events = true) by reflexivity.
  split; [exact H | exact (requests_within_limit testGeneral testProps events H)].
Defined.

Lemma pages_delivered_witness :
  let events := [Mount; FetchMore; ProfilesLoaded [albert; alice]; FetchMore;
                 ProfilesLoaded [ball]; Unmount; ProfilesLoaded [albert]] in
  let s := screen (run testGeneral testProps events initialWorld).1 in
  hasProfiles s = true
  ∧ profiles s = concat [[albert; alice]; [ball]]
  ∧ page s = 1%Z
  ∧ (0 ≤ page s)%Z.
Proof.
  intros events s.
  assert (H : hasProfiles s = true) by reflexivity.
  destruct (pages_delivered testGeneral testProps events) as (Hp & Hpg & Hbar).
  split; [exact H |]. split; [exact Hp |]. split; [exact Hpg | exact (Hbar H)].
Defined.

Lemma nothing_fetched_after_unmount_witness :
  let w := (run testGeneral testProps [Unmount] browsing).1 in
  let events := [FetchMore; ProfilesLoaded [albert]; SearchTextChanged "al"; FetchMore] in
  mounted (screen w) = false
  ∧ forallb (λ e, negb (isMount e)) events = true
  ∧ Forall (λ c, isFetch c = false) (run testGeneral testProps events w).2
  ∧ profiles (screen (run testGeneral testProps events w).1) = profiles (screen w)
  ∧ page (screen (run testGeneral testProps events w).1) = page (screen w)
  ∧ next (screen (run testGeneral testProps events w).1) = next (screen w).
Proof.
  intros w events.
  assert (H1 : mounted (screen w) = false) by reflexivity.
  assert (H2 : forallb (λ e, negb (isMount e)) events = true) by reflexivity.
  split; [exact H1 |]. split; [exact H2 |].
  exact (nothing_fetched_after_unmount testGeneral testProps w events H1 H2).
Defined.

Lemma delayed_search_is_made_witness :
  let events := [Mount; FetchMore; ProfilesLoaded [albert; alice; ball]] in
  let later := [SearchCancelled; SelectProfile albert; Unmount] in
  "al" ≠ ""
  ∧ forallb (λ e, negb (touchesTimers e)) later = true
  ∧ ∃ calls,
      (run testGeneral testProps
         (SearchTextChanged "al" :: later
          ++ [TimerFired (fresh (run testGeneral testProps events initialWorld).1)])
         (run testGeneral testProps events initialWorld).1).2
      = calls ++ [searchProfiles "https://chat.example.com" "al" "team1" "channel1" true]
      ∧ loading (screen (run testGeneral testProps
                           (SearchTextChanged "al" :: later
                            ++ [TimerFired
                                  (fresh (run testGeneral testProps events initialWorld).1)])
                           (run testGeneral testProps events initialWorld).1).1) = true.
Proof.
  intros events later.
  assert (H1 : "al" ≠ "") by discriminate.
  assert (H2 : forallb (λ e, negb (touchesTimers e)) later = true) by reflexivity.
  split; [exact H1 |]. split; [exact H2 |].
  exact (delayed_search_is_made testGeneral testProps events "al" later H1 H2).
Defined.

Lemma search_requested_twice_witness :
  let events := [Mount; FetchMore; ProfilesLoaded [albert; alice; ball]] in
  "Al" ≠ ""
  ∧ (run testGeneral testProps
       [SearchTextChanged "Al"; SearchSubmitted;
        TimerFired (fresh (run testGeneral testProps events initialWorld).1)]
       (run testGeneral testProps events initialWorld).1).2
    = [searchProfiles "https://chat.example.com" "al" "team1" "channel1" true;
       searchProfiles "https://chat.example.com" "al" "team1" "channel1" true].
Proof.
  intros events.
  assert (H : "Al" ≠ "") by discriminate.
  split; [exact H |].
  exact (search_requested_twice testGeneral testProps events "Al" H).
Defined.

Lemma page_requested_again_witness :
  (loading (screen browsing) = false ∧ term (screen browsing) = ""
   ∧ next (screen browsing) = true ∧ mounted (screen browsing) = true)
  ∧ (run testGeneral testProps [FetchMore; SelectProfile albert; FetchMore] browsing).2
    = [fetchProfilesNotInChannel "https://chat.example.com" "team1" "channel1" false 1 100;
       fetchProfilesNotInChannel "https://chat.example.com" "team1" "channel1" false 1 100].
Proof.
  split; [by repeat split |].
  exact (page_requested_again testGeneral testProps browsing albert
           eq_refl eq_refl eq_refl eq_refl).
Defined.

Lemma remove_after_select_witness :
  selectedIds (screen browsing) !! id albert = None
  ∧ (selectedCount (screen browsing) < MAX_SELECTED_USERS testGeneral)%nat
  ∧ selectedIds (toggle testGeneral (screen browsing) albert) !! id albert = Some albert
  ∧ selectedIds (handleRemoveProfile (id albert) (toggle testGeneral (screen browsing) albert))
    = selectedIds (screen browsing).
Proof.
  assert (H1 : selectedIds (screen browsing) !! id albert = None) by reflexivity.
  assert (H2 : (selectedCount (screen browsing) < MAX_SELECTED_USERS testGeneral)%nat)
    by (vm_compute; lia).
  split; [exact H1 |]. split; [exact H2 |].
  exact (remove_after_select testGeneral (screen browsing) albert H1 H2).
Defined.

Lemma select_after_remove_witness :
  let s := foldl (toggle testGeneral) (screen browsing) [albert; alice] in
  (selectedCount s ≤ MAX_SELECTED_USERS testGeneral)%nat
  ∧ selectedIds s !! "u1" = Some albert
  ∧ selectedIds s !! id ball = None
  ∧ selectedIds (toggle testGeneral (rendered testGeneral s (handleRemoveProfile "u1" s)) ball)
    = <[id ball := ball]> (delete "u1" (selectedIds s)).
Proof.
  intros s.
  assert (H1 : (selectedCount s ≤ MAX_SELECTED_USERS testGeneral)%nat)
    by (vm_compute; lia).
  assert (H2 : selectedIds s !! "u1" = Some albert) by reflexivity.
  assert (H3 : selectedIds s !! id ball = None) by reflexivity.
  split; [exact H1 |]. split; [exact H2 |]. split; [exact H3 |].
  exact (select_after_remove testGeneral s "u1" ball H1 (ex_intro _ albert H2) H3).
Defined.

Lemma displayed_results_witness :
  let s := screen (run testGeneral testProps
                     [SelectProfile albert; SearchTextChanged "al"; TimerFired 1%positive;
                      SearchResolved
                        (Some [ball; alice; {| id := "me"; username := "alma" |}; albert])]
                     browsing).1 in
  isSearch s = true
  ∧ data testProps usernameStartsWith s = [alice; albert]
  ∧ data testProps usernameStartsWith s
    ≡ₚ List.filter
         (λ p, usernameStartsWith (term s) p
               && negb ((0 <? selectedCount s)%nat
                        && String.eqb (id p) (currentUserId testProps)))
         (searchResults s).
Proof.
  intros s.
  assert (H : isSearch s = true) by reflexivity.
  split; [exact H |]. split; [reflexivity |].
  exact (proj1 (displayed_results testProps usernameStartsWith s H)).
Defined.

Lemma upper_case_term_witness :
  let s := screen (run testGeneral testProps
                     [SearchTextChanged "Al"; TimerFired 1%positive;
                      SearchResolved (Some [albert; alice])] browsing).1 in
  let keepAll := λ (_ : string) (_ : UserProfile), true in
  isSearch s = true
  ∧ toLowerCase (term s) = "al"
  ∧ term s = "Al"
  ∧ data testProps keepAll s
    = List.filter
        (λ p, keepAll (term s) p
              && negb ((0 <? selectedCount s)%nat
                       && String.eqb (id p) (currentUserId testProps)))
        (searchResults s).
Proof.
  intros s keepAll.
  assert (H1 : isSearch s = true) by reflexivity.
  assert (H2 : toLowerCase (term s) ≠ term s) by discriminate.
  split; [exact H1 |]. split; [reflexivity |]. split; [reflexivity |].
  apply (upper_case_term testProps keepAll s H1 H2).
  intros p Hp. change (searchResults s) with [albert; alice] in Hp.
  apply elem_of_cons in Hp as [-> | Hp]; [reflexivity |].
  apply list_elem_of_singleton in Hp as ->. reflexivity.
Defined.

(** ** What is on the screen *)

(** Along a run, when the search bar is rendered no submission is under
    way, the bar holds the term, a page has come ([page] is not -1), and
    [showNoResults] is handed to the list exactly when nothing is
    loading. *)
Theorem view_with_search_bar (G : Constants) (props : Props)
    (events : list Event) (text : string) (noResults toast : bool) :
  render (screen (run G props events initialWorld).1)
  = ListView (Some text) noResults toast →
  startingAddPeople (screen (run G props events initialWorld).1) = false
  ∧ text = term (screen (run G props events initialWorld).1)
  ∧ (0 ≤ page (screen (run G props events initialWorld).1))%Z
  ∧ noResults = negb (loading (screen (run G props events initialWorld).1)).
Proof.
  destruct (pages_delivered G props events) as (_ & _ & Hbar).
  unfold render, showNoResults.
  destruct (startingAddPeople _); [done |].
  destruct (hasProfiles _); [| done].
  intros [= <- <- _]. specialize (Hbar eq_refl).
  split; [done |]. split; [done |]. split; [done |].
  destruct (Z.eqb_spec (page (screen (run G props events initialWorld).1)) (-1)) as [H | _].
  - lia.
  - by rewrite andb_true_r.
Qed.

Lemma view_with_search_bar_witness :
  let events := [Mount; FetchMore; ProfilesLoaded [albert; alice; ball];
                 SearchTextChanged "al"] in
  render (screen (run testGeneral testProps events initialWorld).1)
  = ListView (Some "al") false false
  ∧ startingAddPeople (screen (run testGeneral testProps events initialWorld).1) = false
  ∧ "al" = term (screen (run testGeneral testProps events initialWorld).1)
  ∧ (0 ≤ page (screen (run testGeneral testProps events initialWorld).1))%Z
  ∧ false = negb (loading (screen (run testGeneral testProps events initialWorld).1)).
Proof.
  intros events.
  assert (H : render (screen (run testGeneral testProps events initialWorld).1)
              = ListView (Some "al") false false) by reflexivity.
  split; [exact H |].
  exact (view_with_search_bar testGeneral testProps events "al" false false H).
Defined.
